(** * api/views.py: the two conversion views and the Poppler set-up

    A shallow embedding of [src/api/views.py].  The views are effectful
    Python: they read and write one process-wide variable
    ([os.environ['POPPLER_PATH']]), probe the filesystem, start a
    subprocess and call three libraries (pdf2image, img2pdf, PIL) that
    may raise.  The embedding threads the variable as state, collects
    every external call in a trace, and propagates exceptions, in a small
    monad of its own.  The libraries and the filesystem are fields of a
    record [World]; nothing is assumed about them. *)

From Stdlib Require Import String Ascii List Bool Arith ZArith Lia.
From Stdlib Require Import Decimal DecimalString DecimalNat.
Import ListNotations.
Open Scope string_scope.

(** ** Python values *)

(** [bytes] and [str] are both sequences of 8-bit characters here. *)
Definition bytes := string.

(** The double quote and the line feed, as one-character strings. *)
Definition dquote : string := String (ascii_of_nat 34) EmptyString.
Definition LF : ascii := ascii_of_nat 10.

(** Exceptions derived from [Exception].  The views tell [KeyError]
    apart from every other class; [msg] is what [str(e)] returns. *)
Inductive exn : Type :=
| KeyError (msg : string)
| OtherError (msg : string).

Definition str_exn (e : exn) : string :=
  match e with KeyError m => m | OtherError m => m end.

(** The result of a call that may raise. *)
Inductive result (A : Type) : Type :=
| Ok (a : A)
| Raise (e : exn).
Arguments Ok {A} a.
Arguments Raise {A} e.

(** [str.lower()], on the ASCII letters. *)
Definition lower_ascii (c : ascii) : ascii :=
  let n := nat_of_ascii c in
  if Nat.leb 65 n && Nat.leb n 90 then ascii_of_nat (n + 32) else c.

Fixpoint lower (s : string) : string :=
  match s with
  | EmptyString => EmptyString
  | String c r => String (lower_ascii c) (lower r)
  end.

(** [needle in hay] on strings. *)
Fixpoint str_in (needle hay : string) : bool :=
  if prefix needle hay then true
  else match hay with
       | EmptyString => false
       | String _ r => str_in needle r
       end.

(** [str(n)] for a non-negative int, as in an f-string. *)
Definition str_of_nat (n : nat) : string :=
  NilEmpty.string_of_uint (Nat.to_uint n).

(** Truth value of [Optional[str]]: [None] and [''] are false. *)
Definition truthy (o : option string) : bool :=
  match o with
  | None => false
  | Some EmptyString => false
  | Some (String _ _) => true
  end.

(** ** pathlib *)

(** [p / c] and [str(p)]: a path is kept as its string. *)
Definition pjoin (p c : string) : string := p ++ "/" ++ c.
Infix "//" := pjoin (at level 40, left associativity).

(** ** Django: requests and responses *)

(** An uploaded file: its declared name and what [read()] does. *)
Record UploadedFile : Type := mkUploadedFile {
  name : string;
  read : result bytes
}.

(** [MultiValueDict], as the parts of the multipart body in order. *)
Definition MultiValueDict (A : Type) := list (string * A).

Definition getlist {A} (d : MultiValueDict A) (key : string) : list A :=
  map snd (filter (fun kv => String.eqb (fst kv) key) d).

(** [d[key]]: the last value of the key, [None] standing for
    [MultiValueDictKeyError], a subclass of [KeyError]. *)
Definition getitem {A} (d : MultiValueDict A) (key : string) : option A :=
  last (map Some (getlist d key)) None.

(** [d.get(key, default)]. *)
Definition get {A} (d : MultiValueDict A) (key : string) (default : A) : A :=
  match getitem d key with Some v => v | None => default end.

Record Request : Type := mkRequest {
  FILES : MultiValueDict UploadedFile;
  POST : MultiValueDict string
}.

(** [HttpResponse(content, content_type=..., status=...)] and its
    headers.  [content_type = None] is the framework's default. *)
Record HttpResponse : Type := mkHttpResponse {
  content : bytes;
  content_type : option string;
  status : nat;
  headers : list (string * string)
}.

Definition HttpResponse_ (c : bytes) (ct : option string) (st : nat) : HttpResponse :=
  {| content := c; content_type := ct; status := st; headers := [] |}.

(** [response[h] = v]. *)
Definition setitem (r : HttpResponse) (h v : string) : HttpResponse :=
  {| content := content r; content_type := content_type r; status := status r;
     headers := headers r ++ [(h, v)] |}.

(** ** pdf2image, PIL, subprocess *)

(** The keyword arguments of [convert_from_bytes]; a key the dict lacks
    is [None]. *)
Record conversion_options : Type := mkOptions {
  fmt : string;
  use_pdftocairo : bool;
  timeout : option nat;
  poppler_path : option string
}.

(** The keyword arguments of [Image.save]. *)
Inductive save_format : Type :=
| PNG (compress_level : nat)
| JPEG (quality : nat).

(** [subprocess.CompletedProcess]. *)
Record CompletedProcess : Type := mkCompleted {
  returncode : Z;
  stdout : string;
  stderr : string
}.

Section Views.

(** PIL's image objects. *)
Context {image : Type}.

(** ** The outside world

    What the module does not compute itself: the filesystem, the
    installer process and the libraries.  Each may answer anything. *)
Record World : Type := mkWorld {
  base_dir : string;                       (* Path(__file__).parent.parent.parent *)
  sys_executable : string;
  path_exists : string -> bool;            (* Path(p).exists() *)
  subprocess_run : list string -> result CompletedProcess;
  convert_from_bytes : bytes -> conversion_options -> result (list image);
  img2pdf_convert : list bytes -> result bytes;
  Image_save : image -> save_format -> result bytes;
  zip_getvalue : list (string * bytes) -> bytes   (* the archive of the entries written *)
}.

(** Every call that leaves the process is recorded. *)
Inductive event : Type :=
| EvRead (f : UploadedFile)
| EvExists (p : string)
| EvRun (argv : list string)
| EvConvertFromBytes (pdf : bytes) (o : conversion_options)
| EvImg2pdf (data : list bytes)
| EvSave (img : image) (f : save_format).

(** ** The monad: state [os.environ.get('POPPLER_PATH')], a trace of
    events, and exceptions *)

Definition environ := option string.

Record outcome (A : Type) : Type := mkOutcome {
  returned : result A;
  env_after : environ;
  trace : list event
}.
Arguments mkOutcome {A}.
Arguments returned {A}.
Arguments env_after {A}.
Arguments trace {A}.

Definition M (A : Type) : Type := environ -> outcome A.

Definition ret {A} (a : A) : M A :=
  fun env => mkOutcome (Ok a) env [].

Definition raise {A} (e : exn) : M A :=
  fun env => mkOutcome (Raise e) env [].

Definition bind {A B} (m : M A) (k : A -> M B) : M B :=
  fun env =>
    let o := m env in
    match returned o with
    | Ok a =>
        let o' := k a (env_after o) in
        mkOutcome (returned o') (env_after o') (trace o ++ trace o')
    | Raise e => mkOutcome (Raise e) (env_after o) (trace o)
    end.

(** [try: m  except Exception as e: h e]. *)
Definition try_except {A} (m : M A) (h : exn -> M A) : M A :=
  fun env =>
    let o := m env in
    match returned o with
    | Ok a => o
    | Raise e =>
        let o' := h e (env_after o) in
        mkOutcome (returned o') (env_after o') (trace o ++ trace o')
    end.

Definition lift {A} (r : result A) : M A :=
  fun env => mkOutcome r env [].

Definition emit (ev : event) : M unit :=
  fun env => mkOutcome (Ok tt) env [ev].

Definition environ_get : M environ :=
  fun env => mkOutcome (Ok env) env [].

Definition environ_set (p : string) : M unit :=
  fun _ => mkOutcome (Ok tt) (Some p) [].

Notation "x <- m ;; k" := (bind m (fun x => k))
  (at level 61, m at next level, right associativity).
Notation "m ;;; k" := (bind m (fun _ => k))
  (at level 61, right associativity).

(** A list comprehension whose body may raise. *)
Fixpoint mapM {A B} (f : A -> M B) (l : list A) : M (list B) :=
  match l with
  | [] => ret []
  | a :: r => b <- f a ;; bs <- mapM f r ;; ret (b :: bs)
  end.

(** The external calls, each leaving its event. *)
Definition read_ (f : UploadedFile) : M bytes :=
  emit (EvRead f) ;;; lift (read f).

Definition exists_ (w : World) (p : string) : M bool :=
  emit (EvExists p) ;;; ret (path_exists w p).

Definition run (w : World) (argv : list string) : M CompletedProcess :=
  emit (EvRun argv) ;;; lift (subprocess_run w argv).

Definition convert_from_bytes_ (w : World) (pdf : bytes) (o : conversion_options)
  : M (list image) :=
  emit (EvConvertFromBytes pdf o) ;;; lift (convert_from_bytes w pdf o).

Definition convert_ (w : World) (data : list bytes) : M bytes :=
  emit (EvImg2pdf data) ;;; lift (img2pdf_convert w data).

Definition save (w : World) (img : image) (f : save_format) : M bytes :=
  emit (EvSave img f) ;;; lift (Image_save w img f).

(** ** JpgToPdfView *)

Definition attachment (filename : string) : string :=
  "attachment; filename=" ++ dquote ++ filename ++ dquote.

(** [JpgToPdfView.post], lines 71-85. *)
Definition JpgToPdfView_post (w : World) (request : Request) : M HttpResponse :=
  try_except
    (let images := getlist (FILES request) "images" in
     match images with
     | [] => ret (HttpResponse_ "No images provided" None 400)
     | _ :: _ =>
         image_data <- mapM read_ images ;;
         pdf_bytes <- convert_ w image_data ;;
         let response := HttpResponse_ pdf_bytes (Some "application/pdf") 200 in
         ret (setitem response "Content-Disposition" (attachment "converted.pdf"))
     end)
    (fun e => ret (HttpResponse_ ("Conversion failed: " ++ str_exn e) None 500)).

(** ** Module-level Poppler set-up, lines 15-66 *)

Definition possible_paths (w : World) : list string :=
  [ base_dir w // "poppler" // "poppler-23.11.0" // "Library" // "bin";
    base_dir w // "poppler" // "Library" // "bin";
    base_dir w // "poppler" // "bin";
    base_dir w // "poppler-23.11.0" // "Library" // "bin" ].

(** The loop of lines 27-32: [poppler_path] is [None] before it, and
    the first path that exists ends it. *)
Fixpoint first_existing (w : World) (paths : list string) : M (option string) :=
  match paths with
  | [] => ret None
  | path :: rest =>
      b <- exists_ w path ;;
      if b then ret (Some path) else first_existing w rest
  end.

Fixpoint strip_prefix (p s : string) : option string :=
  match p, s with
  | EmptyString, _ => Some s
  | String a p', String b s' => if Ascii.eqb a b then strip_prefix p' s' else None
  | String _ _, EmptyString => None
  end.

(** What [.*] takes: everything up to the next line feed. *)
Fixpoint until_LF (s : string) : string :=
  match s with
  | EmptyString => EmptyString
  | String c r => if Ascii.eqb c LF then EmptyString else String c (until_LF r)
  end.

(** [re.search] for a literal [lit] followed by one greedy group of
    any characters, giving [match.group(1)]: the leftmost occurrence
    of [lit], then the rest of its line (the dot matches no line feed). *)
Fixpoint re_search_group1 (lit s : string) : option string :=
  match strip_prefix lit s with
  | Some rest => Some (until_LF rest)
  | None =>
      match s with
      | EmptyString => None
      | String _ r => re_search_group1 lit r
      end
  end.

Definition install_script (w : World) : string := base_dir w // "install_poppler.py".

(** Lines 39-66, the body of [else:]. *)
Definition install_poppler (w : World) : M unit :=
  try_except
    (b <- exists_ w (install_script w) ;;
     if b then
       result <- run w [sys_executable w; install_script w] ;;
       if (returncode result =? 0)%Z && str_in "Poppler installed at:" (stdout result)
       then
         match re_search_group1 "Poppler installed at: " (stdout result) with
         | Some poppler_path => environ_set poppler_path
         | None => ret tt
         end
       else ret tt
     else ret tt)
    (fun e => ret tt).

(** The statements run when the module is imported. *)
Definition module_setup (w : World) : M unit :=
  env <- environ_get ;;
  if negb (truthy env) then
    poppler_path <- first_existing w (possible_paths w) ;;
    match poppler_path with
    | Some (String _ _ as p) => environ_set p
    | _ => install_poppler w
    end
  else ret tt.

(** ** PdfToJpgView *)

(** [PdfToJpgView.head], lines 90-92. *)
Definition PdfToJpgView_head (w : World) (request : Request) : M HttpResponse :=
  ret (HttpResponse_ "" None 200).

(** [request.FILES['pdf']]. *)
Definition getitem_ {A} (d : MultiValueDict A) (key : string) : M A :=
  match getitem d key with
  | Some v => ret v
  | None => raise (KeyError ("'" ++ key ++ "'"))
  end.

(** The loop of lines 115-123; [poppler_path] keeps its value when no
    path exists. *)
Fixpoint probe (w : World) (paths : list string) (poppler_path : option string)
  : M (option string) :=
  match paths with
  | [] => ret poppler_path
  | path :: rest =>
      b <- exists_ w path ;;
      if b then environ_set path ;;; ret (Some path)
      else probe w rest poppler_path
  end.

(** Lines 109-128: the Poppler path this request works with. *)
Definition find_poppler (w : World) : M (option string) :=
  poppler_path <- environ_get ;;
  poppler_path <-
    (if negb (truthy poppler_path) then
       probe w [ base_dir w // "poppler" // "poppler-23.11.0" // "Library" // "bin";
                 base_dir w // "poppler" // "Library" // "bin" ] poppler_path
     else ret poppler_path) ;;
  match poppler_path with
  | Some (String _ _ as p) =>
      b <- exists_ w p ;;
      if negb b then ret None else ret poppler_path
  | _ => ret poppler_path
  end.

(** [conversion_options], with the key [poppler_path] added under
    [if poppler_path:]. *)
Definition options (format : string) (cairo : bool) (t : option nat)
  (poppler_path : option string) : conversion_options :=
  {| fmt := format; use_pdftocairo := cairo; timeout := t;
     poppler_path := if truthy poppler_path then poppler_path else None |}.

Definition conversion_failed : string :=
  "PDF conversion failed. The PDF might be corrupted, password-protected, or Poppler is not properly installed.".

(** Lines 131-168: the two attempts.  [inl] is the response returned
    from inside the second handler. *)
Definition convert_pdf (w : World) (format : string) (pdf_content : bytes)
  (poppler_path : option string) : M (HttpResponse + list image) :=
  try_except
    (images <- convert_from_bytes_ w pdf_content (options format true (Some 60) poppler_path) ;;
     ret (inr images))
    (fun first_error =>
       try_except
         (images <- convert_from_bytes_ w pdf_content (options format false None poppler_path) ;;
          ret (inr images))
         (fun second_error => ret (inl (HttpResponse_ conversion_failed None 500)))).

(** The keyword arguments of [save], lines 179-183 and 196-199. *)
Definition save_kwargs (format : string) : save_format :=
  if String.eqb (lower format) "png" then PNG 1 else JPEG 95.

Definition save_page (w : World) (format : string) (img : image) : M bytes :=
  save w img (save_kwargs format).

(** [f'page_{i+1}.{format}']. *)
Definition page_name (format : string) (i : nat) : string :=
  "page_" ++ str_of_nat (i + 1) ++ "." ++ format.

(** The loop of lines 193-201, [i] counting from the index given. *)
Fixpoint write_pages (w : World) (format : string) (i : nat) (images : list image)
  : M (list (string * bytes)) :=
  match images with
  | [] => ret []
  | img :: rest =>
      data <- save_page w format img ;;
      entries <- write_pages w format (S i) rest ;;
      ret ((page_name format i, data) :: entries)
  end.

(** Lines 170-215. *)
Definition package (w : World) (format : string) (images : list image) : M HttpResponse :=
  match images with
  | [] => ret (HttpResponse_ "Failed to extract images from PDF (no images extracted)" None 500)
  | [img] =>
      output <- save_page w format img ;;
      let response := HttpResponse_ output (Some ("image/" ++ format)) 200 in
      ret (setitem response "Content-Disposition" (attachment ("converted." ++ format)))
  | _ =>
      entries <- write_pages w format 0 images ;;
      let response := HttpResponse_ (zip_getvalue w entries) (Some "application/zip") 200 in
      ret (setitem response "Content-Disposition" (attachment "converted.zip"))
  end.

(** The two [except] clauses of lines 217-222. *)
Definition on_exception (e : exn) : HttpResponse :=
  match e with
  | KeyError _ => HttpResponse_ "No PDF file uploaded" None 400
  | OtherError _ => HttpResponse_ ("Conversion failed: " ++ str_exn e) None 500
  end.

(** [PdfToJpgView.post], lines 94-222. *)
Definition PdfToJpgView_post (w : World) (request : Request) : M HttpResponse :=
  try_except
    (pdf_file <- getitem_ (FILES request) "pdf" ;;
     let format := lower (get (POST request) "format" "jpg") in
     pdf_content <- read_ pdf_file ;;
     poppler_path <- find_poppler w ;;
     r <- convert_pdf w format pdf_content poppler_path ;;
     match r with
     | inl response => ret response
     | inr images => package w format images
     end)
    (fun e => ret (on_exception e)).

(** ** Reading a trace *)

(** A body that says the document may be corrupt, protected, or the
    toolchain missing. *)
Definition blames_document_or_toolchain (body : string) : bool :=
  str_in "corrupted" body && str_in "password-protected" body && str_in "Poppler" body.

(** The calls of the rasterization routine, in order. *)
Fixpoint conversions (tr : list event) : list (bytes * conversion_options) :=
  match tr with
  | [] => []
  | EvConvertFromBytes pdf o :: r => (pdf, o) :: conversions r
  | _ :: r => conversions r
  end.

(** What the last call of the rasterization routine answered. *)
Definition last_conversion (w : World) (tr : list event) : option (result (list image)) :=
  last (map (fun c => Some (convert_from_bytes w (fst c) (snd c))) (conversions tr)) None.

(** The keyword arguments of the [save] calls, in order. *)
Fixpoint saves (tr : list event) : list save_format :=
  match tr with
  | [] => []
  | EvSave _ f :: r => f :: saves r
  | _ :: r => saves r
  end.

(** The processes started, in order. *)
Fixpoint runs (tr : list event) : list (list string) :=
  match tr with
  | [] => []
  | EvRun argv :: r => argv :: runs r
  | _ :: r => runs r
  end.

(** The paths whose existence was asked, in order. *)
Fixpoint probes (tr : list event) : list string :=
  match tr with
  | [] => []
  | EvExists p :: r => p :: probes r
  | _ :: r => probes r
  end.

Definition raises_KeyError {A} (r : result A) : bool :=
  match r with Raise (KeyError _) => true | _ => false end.

(** Whether the call behind an event raised [KeyError]. *)
Definition event_KeyError (w : World) (ev : event) : bool :=
  match ev with
  | EvRead f => raises_KeyError (read f)
  | EvExists _ => false
  | EvRun argv => raises_KeyError (subprocess_run w argv)
  | EvConvertFromBytes pdf o => raises_KeyError (convert_from_bytes w pdf o)
  | EvImg2pdf data => raises_KeyError (img2pdf_convert w data)
  | EvSave img f => raises_KeyError (Image_save w img f)
  end.

Definition is_conversion (ev : event) : bool :=
  match ev with EvConvertFromBytes _ _ => true | _ => false end.

(** What a run of the encoding loop leaves behind: the variable is
    untouched, every event is a [save] with the keyword arguments of the
    format, and a [save] that raised ended the loop with its exception. *)
Definition encoding_run {A} (w : World) (format : string) (env : environ) (o : outcome A)
  : Prop :=
  env_after o = env
  /\ (forall ev, In ev (trace o) -> exists img, ev = EvSave img (save_kwargs format))
  /\ (forall img f e, In (EvSave img f) (trace o) -> Image_save w img f = Raise e ->
      returned o = Raise e).

(** The uploads read, in order. *)
Fixpoint reads (tr : list event) : list UploadedFile :=
  match tr with
  | [] => []
  | EvRead f :: r => f :: reads r
  | _ :: r => reads r
  end.

(** The calls of the assembly routine, in order. *)
Fixpoint assemblies (tr : list event) : list (list bytes) :=
  match tr with
  | [] => []
  | EvImg2pdf data :: r => data :: assemblies r
  | _ :: r => assemblies r
  end.

(** The two directories of lines 116-117. *)
Definition likely_paths (w : World) : list string :=
  [ base_dir w // "poppler" // "poppler-23.11.0" // "Library" // "bin";
    base_dir w // "poppler" // "Library" // "bin" ].

(** The answers the views build: 200 with a content type and the one
    header naming the attachment, or 400 or 500 with neither. *)
Definition is_attachment (response : HttpResponse) : Prop :=
  exists body ct filename,
    response = {| content := body; content_type := Some ct; status := 200;
                  headers := [("Content-Disposition", attachment filename)] |}.

Definition is_error (response : HttpResponse) : Prop :=
  (status response = 400 \/ status response = 500)
  /\ content_type response = None /\ headers response = [].


(** The value a computation returned, [None] when it raised. *)
Definition returned_path (o : outcome (option string)) : option string :=
  match returned o with Ok pp => pp | Raise _ => None end.

(** ** Statements of the specification that the code does not meet

    Each is written down as the specification has it, to be refuted at
    a sample input and replaced by what the code does. *)

(** Section 4.3: when the second attempt fails, or the rasterization
    returns no page, the answer is 500 and its message blames the
    document or the toolchain. *)
Definition failure_message_as_specified (w : World) (request : Request) (env : environ)
  : Prop :=
  let o := PdfToJpgView_post w request env in
  (exists e, last_conversion w (trace o) = Some (Raise e))
  \/ last_conversion w (trace o) = Some (Ok []) ->
  exists response,
    returned o = Ok response /\ status response = 500
    /\ blames_document_or_toolchain (content response) = true.

(** Sections 3 and 4.3 (c): a cached location whose path is gone is
    cleared from the process-wide variable, and the conversion goes on
    without a path. *)
Definition cached_path_cleared_as_specified (w : World) (request : Request) (p : string)
  : Prop :=
  truthy (Some p) = true -> path_exists w p = false ->
  forall f pdf_content,
    getitem (FILES request) "pdf" = Some f -> read f = Ok pdf_content ->
    let o := PdfToJpgView_post w request (Some p) in
    env_after o = None
    /\ forall pdf c, In (pdf, c) (conversions (trace o)) -> poppler_path c = None.

(** What the installer reports: the path after the marker, when the
    process exits with 0 and prints the marker. *)
Definition installed_at (r : result CompletedProcess) : option string :=
  match r with
  | Ok p =>
      if (returncode p =? 0)%Z && str_in "Poppler installed at:" (stdout p)
      then re_search_group1 "Poppler installed at: " (stdout p)
      else None
  | Raise _ => None
  end.

(** The installer's part of section 4.1: when no candidate exists the
    installer is run, once, and the variable takes the path it
    reports, or stays as it was when it reports none. *)
Definition installer_fallback (w : World) (env : environ) : Prop :=
  let o := module_setup w env in
  let argv := [sys_executable w; install_script w] in
  runs (trace o) = [argv]
  /\ env_after o = match installed_at (subprocess_run w argv) with
                   | Some p => Some p
                   | None => env
                   end.

(** The candidates' part of section 4.1: the first candidate that
    exists is taken, and nothing is asked or run after it. *)
Definition first_candidate_wins (w : World) (env : environ) : Prop :=
  forall before p after,
    possible_paths w = (before ++ p :: after)%list ->
    (forall q, In q before -> path_exists w q = false) ->
    path_exists w p = true ->
    let o := module_setup w env in
    env_after o = Some p
    /\ probes (trace o) = (before ++ [p])%list
    /\ runs (trace o) = [].

Definition locator_as_specified (w : World) (env : environ) : Prop :=
  truthy env = false ->
  first_candidate_wins w env
  /\ ((forall q, In q (possible_paths w) -> path_exists w q = false) ->
      installer_fallback w env).

(** Every [KeyError] raised while the body of [PdfToJpgView.post] runs
    ends in 400 with the body No PDF file uploaded. *)
Definition every_KeyError_is_400 (w : World) (request : Request) (env : environ) : Prop :=
  let o := PdfToJpgView_post w request env in
  getitem (FILES request) "pdf" = None
  \/ (exists ev, In ev (trace o) /\ event_KeyError w ev = true) ->
  returned o = Ok (HttpResponse_ "No PDF file uploaded" None 400).

End Views.

Arguments mkOutcome {image A} returned env_after trace.
Arguments returned {image A} o.
Arguments env_after {image A} o.
Arguments trace {image A} o.

(** ** Sample worlds and requests *)

Module Sample.

Definition a_pdf : UploadedFile := {| name := "a.pdf"; read := Ok "%PDF-1.4" |}.
Definition empty_pdf : UploadedFile := {| name := "empty.pdf"; read := Ok "" |}.
Definition three_pages : UploadedFile := {| name := "three.pdf"; read := Ok "abc" |}.
Definition one_page : UploadedFile := {| name := "one.pdf"; read := Ok "a" |}.
Definition unreadable : UploadedFile :=
  {| name := "gone.pdf"; read := Raise (KeyError "'chunk'") |}.
Definition one_jpg : UploadedFile := {| name := "1.jpg"; read := Ok "JFIF-1" |}.
Definition two_jpg : UploadedFile := {| name := "2.jpg"; read := Ok "JFIF-2" |}.

(** Pages are numbered; a document has as many pages as it has
    characters; nothing exists on disk and nothing raises. *)
Definition plain : @World nat :=
  {| base_dir := "/srv/backend";
     sys_executable := "/usr/bin/python3";
     path_exists := fun _ => false;
     subprocess_run := fun _ => Ok {| returncode := 1; stdout := ""; stderr := "no network" |};
     convert_from_bytes := fun pdf _ => Ok (seq 1 (String.length pdf));
     img2pdf_convert := fun data => Ok (String.concat "|" data);
     Image_save := fun img f =>
       Ok (match f with PNG _ => "PNG:" | JPEG _ => "JPEG:" end ++ str_of_nat img);
     zip_getvalue := fun entries =>
       String.concat ";" (map (fun e => fst e ++ "=" ++ snd e) entries) |}.

Definition with_fs (w : @World nat) (fs : string -> bool) : @World nat :=
  {| base_dir := base_dir w; sys_executable := sys_executable w;
     path_exists := fs;
     subprocess_run := subprocess_run w;
     convert_from_bytes := convert_from_bytes w;
     img2pdf_convert := img2pdf_convert w;
     Image_save := Image_save w;
     zip_getvalue := zip_getvalue w |}.

Definition with_pdf2image (w : @World nat)
  (c : bytes -> conversion_options -> result (list nat)) : @World nat :=
  {| base_dir := base_dir w; sys_executable := sys_executable w;
     path_exists := path_exists w;
     subprocess_run := subprocess_run w;
     convert_from_bytes := c;
     img2pdf_convert := img2pdf_convert w;
     Image_save := Image_save w;
     zip_getvalue := zip_getvalue w |}.

Definition with_installer (w : @World nat)
  (r : list string -> result CompletedProcess) : @World nat :=
  {| base_dir := base_dir w; sys_executable := sys_executable w;
     path_exists := path_exists w;
     subprocess_run := r;
     convert_from_bytes := convert_from_bytes w;
     img2pdf_convert := img2pdf_convert w;
     Image_save := Image_save w;
     zip_getvalue := zip_getvalue w |}.

(** pdf2image failing on every call. *)
Definition no_poppler : @World nat :=
  with_pdf2image plain (fun _ _ => Raise (OtherError "Unable to get page count.")).

(** pdf2image raising [KeyError] on every call. *)
Definition bad_kwargs : @World nat :=
  with_pdf2image plain (fun _ _ => Raise (KeyError "'dpi'")).

(** The second candidate directory is on disk. *)
Definition unpacked : @World nat :=
  with_fs plain (fun p => String.eqb p "/srv/backend/poppler/Library/bin").

(** Only the installer script is on disk, and the installer works. *)
Definition installable : @World nat :=
  with_installer
    (with_fs plain (fun p => String.eqb p "/srv/backend/install_poppler.py"))
    (fun _ =>
       Ok {| returncode := 0;
             stdout := "Downloading" ++ String LF "Poppler installed at: /srv/backend/poppler/bin"
                       ++ String LF "done";
             stderr := "" |}).

(** PIL failing on the second page. *)
Definition flaky_PIL : @World nat :=
  {| base_dir := base_dir plain; sys_executable := sys_executable plain;
     path_exists := path_exists plain;
     subprocess_run := subprocess_run plain;
     convert_from_bytes := convert_from_bytes plain;
     img2pdf_convert := img2pdf_convert plain;
     Image_save := fun img f =>
       if Nat.eqb img 2 then Raise (OtherError "cannot write mode P as JPEG")
       else Image_save plain img f;
     zip_getvalue := zip_getvalue plain |}.


Definition upload (files : list (string * UploadedFile)) (fields : list (string * string))
  : Request :=
  {| FILES := files; POST := fields |}.

End Sample.

(** * Properties *)

Section Properties.

Context {image : Type}.
Implicit Types (w : @World image) (request : Request) (env : environ).

(** ** The monad and the dictionaries *)

Lemma getlist_absent {A} (d : MultiValueDict A) (key : string) :
  ~ In key (map fst d) -> getlist d key = [].
Proof.
  unfold getlist. induction d as [|[k v] d IH]; simpl; intros H; [reflexivity|].
  destruct (String.eqb_spec k key) as [->|_].
  - exfalso. apply H. now left.
  - apply IH. intros Hin. apply H. now right.
Qed.

Lemma getitem_absent {A} (d : MultiValueDict A) (key : string) :
  ~ In key (map fst d) -> getitem d key = None.
Proof.
  intros H. unfold getitem. now rewrite (getlist_absent d key H).
Qed.

Lemma read__eq (f : UploadedFile) env :
  @read_ image f env = mkOutcome (read f) env [EvRead f].
Proof.
  unfold read_, bind, emit, lift. cbn. now destruct (read f).
Qed.

Lemma mapM_read (files : list UploadedFile) (data : list bytes) env :
  map read files = map Ok data ->
  mapM (@read_ image) files env = mkOutcome (Ok data) env (map EvRead files).
Proof.
  revert data. induction files as [|f files IH]; intros [|b data] H; try discriminate.
  - reflexivity.
  - cbn in H. injection H as Hf Hr.
    cbn [mapM map]. unfold bind. rewrite read__eq. cbn. rewrite Hf.
    cbn. rewrite (IH data Hr). cbn. now rewrite app_nil_r.
Qed.

Lemma exists__eq w (p : string) env :
  exists_ w p env = mkOutcome (Ok (path_exists w p)) env [EvExists p].
Proof. reflexivity. Qed.

Lemma save_eq w (img : image) (f : save_format) env :
  save w img f env = mkOutcome (Image_save w img f) env [EvSave img f].
Proof.
  unfold save, bind, emit, lift. cbn. now destruct (Image_save w img f).
Qed.

Lemma convert_from_bytes__eq w (pdf : bytes) (o : conversion_options) env :
  convert_from_bytes_ w pdf o env
  = mkOutcome (convert_from_bytes w pdf o) env [EvConvertFromBytes pdf o].
Proof.
  unfold convert_from_bytes_, bind, emit, lift. cbn.
  now destruct (convert_from_bytes w pdf o).
Qed.

Lemma run_eq w (argv : list string) env :
  run w argv env = mkOutcome (subprocess_run w argv) env [EvRun argv].
Proof.
  unfold run, bind, emit, lift. cbn. now destruct (subprocess_run w argv).
Qed.

(** ** Traces *)

Lemma conversions_app (a b : list (@event image)) :
  conversions (a ++ b) = (conversions a ++ conversions b)%list.
Proof.
  induction a as [|ev a IH]; [reflexivity|].
  destruct ev; cbn; rewrite IH; reflexivity.
Qed.

Lemma saves_app (a b : list (@event image)) :
  saves (a ++ b) = (saves a ++ saves b)%list.
Proof.
  induction a as [|ev a IH]; [reflexivity|].
  destruct ev; cbn; rewrite IH; reflexivity.
Qed.

Lemma conversions_probes (ps : list string) :
  conversions (map (@EvExists image) ps) = [].
Proof. induction ps; [reflexivity|assumption]. Qed.

Lemma saves_probes (ps : list string) :
  saves (map (@EvExists image) ps) = [].
Proof. induction ps; [reflexivity|assumption]. Qed.

(** ** The Poppler path of a request *)

Lemma probe_run w (paths : list string) (pp : option string) env :
  exists pp' env' ps,
    probe w paths pp env = mkOutcome (Ok pp') env' (map EvExists ps).
Proof.
  induction paths as [|path rest IH].
  - exists pp, env, []. reflexivity.
  - cbn [probe]. unfold bind. rewrite exists__eq. cbn.
    destruct (path_exists w path).
    + exists (Some path), (Some path), [path]. reflexivity.
    + destruct IH as (pp' & env' & ps & ->). cbn.
      exists pp', env', (path :: ps). reflexivity.
Qed.

Local Arguments probe : simpl never.

(** [find_poppler] never raises and only asks the filesystem; a
    variable that is set is left alone, and a path that is set but
    missing is dropped for this request. *)
Lemma find_poppler_run w env :
  exists pp env1 ps,
    find_poppler w env = mkOutcome (Ok pp) env1 (map EvExists ps)
    /\ (truthy env = true -> env1 = env)
    /\ (forall p, env = Some p -> truthy env = true -> path_exists w p = false ->
        pp = None).
Proof.
  unfold find_poppler, bind, environ_get. cbn.
  destruct env as [[|c p]|]; cbn.
  - match goal with |- context [probe w ?l ?q ?e] =>
      destruct (probe_run w l q e) as (pp' & env' & ps & ->) end. cbn.
    destruct pp' as [[|c p]|]; cbn.
    + exists (Some ""), env', ps. rewrite app_nil_r. repeat split; discriminate.
    + rewrite ?exists__eq; cbn.
      exists (if negb (path_exists w (String c p)) then None else Some (String c p)),
        env', (ps ++ [String c p])%list.
      split; [|split; discriminate].
      rewrite map_app. now destruct (path_exists w (String c p)).
    + exists None, env', ps. rewrite app_nil_r. repeat split; discriminate.
  - rewrite ?exists__eq; cbn.
    exists (if negb (path_exists w (String c p)) then None else Some (String c p)),
      (Some (String c p)), [String c p].
    split; [now destruct (path_exists w (String c p))|]. split; [reflexivity|].
    intros q [= <-] _ ->. reflexivity.
  - match goal with |- context [probe w ?l ?q ?e] =>
      destruct (probe_run w l q e) as (pp' & env' & ps & ->) end. cbn.
    destruct pp' as [[|c p]|]; cbn.
    + exists (Some ""), env', ps. rewrite app_nil_r. repeat split; discriminate.
    + rewrite ?exists__eq; cbn.
      exists (if negb (path_exists w (String c p)) then None else Some (String c p)),
        env', (ps ++ [String c p])%list.
      split; [|split; discriminate].
      rewrite map_app. now destruct (path_exists w (String c p)).
    + exists None, env', ps. rewrite app_nil_r. repeat split; discriminate.
Qed.

(** ** The two attempts *)

Lemma convert_pdf_run w (format : string) (pdf : bytes) (pp : option string) env :
  let o1 := options format true (Some 60) pp in
  let o2 := options format false None pp in
  convert_pdf w format pdf pp env =
    match convert_from_bytes w pdf o1 with
    | Ok images => mkOutcome (Ok (inr images)) env [EvConvertFromBytes pdf o1]
    | Raise _ =>
        match convert_from_bytes w pdf o2 with
        | Ok images =>
            mkOutcome (Ok (inr images)) env
              [EvConvertFromBytes pdf o1; EvConvertFromBytes pdf o2]
        | Raise _ =>
            mkOutcome (Ok (inl (HttpResponse_ conversion_failed None 500))) env
              [EvConvertFromBytes pdf o1; EvConvertFromBytes pdf o2]
        end
    end.
Proof.
  intros o1 o2. unfold convert_pdf, try_except, bind.
  rewrite !convert_from_bytes__eq. fold o1 o2. cbn.
  destruct (convert_from_bytes w pdf o1); cbn; [reflexivity|].
  destruct (convert_from_bytes w pdf o2); reflexivity.
Qed.

(** ** Encoding and packaging *)

Lemma write_pages_cons w (format : string) (i : nat) (img : image) rest env :
  write_pages w format i (img :: rest) env =
    match Image_save w img (save_kwargs format) with
    | Ok data =>
        let o := write_pages w format (S i) rest env in
        mkOutcome
          (match returned o with
           | Ok entries => Ok ((page_name format i, data) :: entries)
           | Raise e => Raise e
           end)
          (env_after o) (EvSave img (save_kwargs format) :: trace o)
    | Raise e => mkOutcome (Raise e) env [EvSave img (save_kwargs format)]
    end.
Proof.
  cbn [write_pages]. unfold bind, save_page. rewrite save_eq. cbn.
  destruct (Image_save w img (save_kwargs format)); [|reflexivity].
  destruct (write_pages w format (S i) rest env) as [[entries|e] env' tr]; cbn;
    now rewrite ?app_nil_r.
Qed.

Lemma write_pages_run w (format : string) (images : list image) (i : nat) env :
  encoding_run w format env (write_pages w format i images env).
Proof.
  revert i. induction images as [|img rest IH]; intros i.
  - repeat split; cbn; intros; contradiction.
  - rewrite write_pages_cons.
    destruct (Image_save w img (save_kwargs format)) as [data|e0] eqn:Hs.
    + destruct (IH (S i)) as (He & Hev & Hraise). cbn. split; [exact He|]. split.
      * intros ev [<-|Hin]; [now exists img|now apply Hev].
      * intros img' f e [[= <- <-]|Hin] Hf; [rewrite Hs in Hf; discriminate Hf|].
        now rewrite (Hraise img' f e Hin Hf).
    + cbn. split; [reflexivity|]. split.
      * intros ev [<-|[]]. now exists img.
      * intros img' f e [[= <- <-]|[]] Hf. rewrite Hs in Hf. first [discriminate Hf | now injection Hf as ->].
Qed.

Lemma write_pages_ok w (format : string) (images : list image) (datas : list bytes) i env :
  Forall2 (fun img data => Image_save w img (save_kwargs format) = Ok data) images datas ->
  write_pages w format i images env =
    mkOutcome
      (Ok (combine (map (page_name format) (seq i (length images))) datas))
      env (map (fun img => EvSave img (save_kwargs format)) images).
Proof.
  intros H. revert i. induction H as [|img data images datas Hs _ IH]; intros i.
  - reflexivity.
  - rewrite write_pages_cons, Hs, (IH (S i)). reflexivity.
Qed.

Local Arguments write_pages : simpl never.

Lemma package_run w (format : string) (images : list image) env :
  encoding_run w format env (package w format images env).
Proof.
  destruct images as [|img [|img2 rest]].
  - repeat split; cbn; intros; contradiction.
  - unfold package, bind, save_page. rewrite save_eq. cbn.
    destruct (Image_save w img (save_kwargs format)) as [data|e0] eqn:Hs; cbn.
    + split; [reflexivity|]. split.
      * intros ev [<-|[]]. now exists img.
      * intros img' f e [[= <- <-]|[]] Hf. rewrite Hs in Hf. first [discriminate Hf | now injection Hf as ->].
    + split; [reflexivity|]. split.
      * intros ev [<-|[]]. now exists img.
      * intros img' f e [[= <- <-]|[]] Hf. rewrite Hs in Hf. first [discriminate Hf | now injection Hf as ->].
  - unfold package, bind.
    destruct (write_pages_run w format (img :: img2 :: rest) 0 env) as (He & Hev & Hraise).
    destruct (write_pages w format 0 (img :: img2 :: rest) env) as [[entries|e0] env' tr];
      cbn in *; rewrite ?app_nil_r;
      (split; [exact He|]; split; [exact Hev|]);
      intros img' f e Hin Hf; cbn in *;
      [discriminate (Hraise img' f e Hin Hf)
      | now injection (Hraise img' f e Hin Hf) as ->].
Qed.

Lemma encoding_run_conversions {A} w (format : string) env (o : outcome A) :
  encoding_run w format env o -> conversions (trace o) = [].
Proof.
  intros (_ & Hev & _). induction (trace o) as [|ev tr IH]; [reflexivity|].
  destruct (Hev ev (or_introl eq_refl)) as [img ->]. cbn.
  apply IH. intros ev' Hin. apply Hev. now right.
Qed.

(** ** The handler, stage by stage *)

Local Arguments read_ : simpl never.
Local Arguments find_poppler : simpl never.
Local Arguments convert_pdf : simpl never.
Local Arguments package : simpl never.

Lemma post_run w request env (f : UploadedFile) (pdf_content : bytes) pp env1 ps :
  getitem (FILES request) "pdf" = Some f ->
  read f = Ok pdf_content ->
  find_poppler w env = mkOutcome (Ok pp) env1 (map EvExists ps) ->
  let format := lower (get (POST request) "format" "jpg") in
  let c := convert_pdf w format pdf_content pp env1 in
  let pre := (EvRead f :: map EvExists ps ++ trace c)%list in
  PdfToJpgView_post w request env =
    match returned c with
    | Ok (inl response) => mkOutcome (Ok response) (env_after c) pre
    | Ok (inr images) =>
        let o := package w format images (env_after c) in
        mkOutcome
          (Ok (match returned o with Ok response => response | Raise e => on_exception e end))
          (env_after o) (pre ++ trace o)
    | Raise e => mkOutcome (Ok (on_exception e)) (env_after c) pre
    end.
Proof.
  intros Hf Hread Hfind format c pre.
  unfold PdfToJpgView_post, try_except, bind, getitem_. rewrite Hf. cbn.
  rewrite read__eq, Hread. cbn. rewrite Hfind. cbn.
  fold format. fold c. subst pre.
  destruct c as [[[response|images]|e] env2 tr2]; cbn.
  - now rewrite !app_nil_r.
  - destruct (package w format images env2) as [[response|e] env3 tr3]; cbn;
      now rewrite ?app_nil_r, <- ?app_assoc.
  - now rewrite !app_nil_r.
Qed.

(** A read that raises ends the request before anything else is
    called. *)
Lemma post_read_raises w request env (f : UploadedFile) (e : exn) :
  getitem (FILES request) "pdf" = Some f ->
  read f = Raise e ->
  PdfToJpgView_post w request env = mkOutcome (Ok (on_exception e)) env [EvRead f].
Proof.
  intros Hf Hread.
  unfold PdfToJpgView_post, try_except, bind, getitem_. rewrite Hf. cbn.
  rewrite read__eq, Hread. reflexivity.
Qed.

Lemma post_missing w request env :
  getitem (FILES request) "pdf" = None ->
  PdfToJpgView_post w request env
  = mkOutcome (Ok (HttpResponse_ "No PDF file uploaded" None 400)) env [].
Proof.
  intros H. unfold PdfToJpgView_post, try_except, bind, getitem_.
  rewrite H. reflexivity.
Qed.

(** The shape of every run that gets past the read. *)
Lemma post_cases w request env (f : UploadedFile) (pdf_content : bytes) :
  getitem (FILES request) "pdf" = Some f ->
  read f = Ok pdf_content ->
  let format := lower (get (POST request) "format" "jpg") in
  exists pp env1 ps,
    (truthy env = true -> env1 = env)
    /\ (forall p, env = Some p -> truthy env = true -> path_exists w p = false ->
        pp = None)
    /\ let o1 := options format true (Some 60) pp in
       let o2 := options format false None pp in
       let finish (cs : list event) (images : list image) :=
         let k := package w format images env1 in
         mkOutcome
           (Ok (match returned k with Ok response => response | Raise e => on_exception e end))
           env1 (EvRead f :: map EvExists ps ++ cs ++ trace k)%list in
       PdfToJpgView_post w request env =
         match convert_from_bytes w pdf_content o1 with
         | Ok images => finish [EvConvertFromBytes pdf_content o1] images
         | Raise _ =>
             match convert_from_bytes w pdf_content o2 with
             | Ok images =>
                 finish [EvConvertFromBytes pdf_content o1;
                         EvConvertFromBytes pdf_content o2] images
             | Raise _ =>
                 mkOutcome (Ok (HttpResponse_ conversion_failed None 500)) env1
                   (EvRead f :: map EvExists ps
                      ++ [EvConvertFromBytes pdf_content o1;
                          EvConvertFromBytes pdf_content o2])%list
             end
         end.
Proof.
  intros Hf Hread format.
  destruct (find_poppler_run w env) as (pp & env1 & ps & Hfind & Henv & Hgone).
  exists pp, env1, ps. split; [exact Henv|]. split; [exact Hgone|].
  intros o1 o2 finish.
  rewrite (post_run w request env f pdf_content pp env1 ps Hf Hread Hfind).
  fold format. rewrite convert_pdf_run. fold o1 o2. subst finish.
  destruct (convert_from_bytes w pdf_content o1) as [images|e1]; cbn.
  - destruct (package_run w format images env1) as (-> & _).
    now rewrite <- app_assoc.
  - destruct (convert_from_bytes w pdf_content o2) as [images|e2]; cbn.
    + destruct (package_run w format images env1) as (-> & _).
      now rewrite <- app_assoc.
    + reflexivity.
Qed.

Lemma conversions_of_run {A} w (format : string) env (k : outcome A)
  (f : UploadedFile) (ps : list string) (cs : list event) :
  encoding_run w format env k ->
  conversions (EvRead f :: map EvExists ps ++ cs ++ trace k) = conversions cs.
Proof.
  intros Hk. cbn. rewrite !conversions_app, conversions_probes.
  rewrite (encoding_run_conversions w format env k Hk). cbn. now rewrite app_nil_r.
Qed.

Lemma getitem_present {A} (d : MultiValueDict A) (key : string) :
  In key (map fst d) -> exists v, getitem d key = Some v.
Proof.
  intros H. unfold getitem.
  assert (Hne : getlist d key <> []).
  { unfold getlist. induction d as [|[k v] d IH]; [contradiction|].
    cbn in *. destruct (String.eqb_spec k key) as [->|Hk]; [discriminate|].
    destruct H as [H|H]; [contradiction|]. now apply IH. }
  induction (getlist d key) as [|v l IH]; [contradiction|].
  destruct l as [|v' l]; [now exists v|].
  cbn [map last] in *. apply IH. discriminate.
Qed.




Lemma saves_of_run w (format : string) (f : UploadedFile) (ps : list string)
  (cs tr : list (@event image)) :
  saves cs = [] ->
  saves (EvRead f :: map EvExists ps ++ cs ++ tr) = saves tr.
Proof.
  intros Hcs. cbn. now rewrite !saves_app, saves_probes, Hcs.
Qed.

(** What the answer of the last rasterization call decides. *)
Lemma post_outcome w request env :
  let format := lower (get (POST request) "format" "jpg") in
  let o := PdfToJpgView_post w request env in
  match last_conversion w (trace o) with
  | None => saves (trace o) = []
  | Some (Raise _) =>
      returned o = Ok (HttpResponse_ conversion_failed None 500)
      /\ saves (trace o) = []
  | Some (Ok images) =>
      exists env1,
        let k := package w format images env1 in
        returned o
        = Ok (match returned k with Ok response => response | Raise e => on_exception e end)
        /\ saves (trace o) = saves (trace k)
  end.
Proof.
  intros format o. subst o.
  destruct (getitem (FILES request) "pdf") as [f|] eqn:Hf;
    [|rewrite (post_missing w request env Hf); reflexivity].
  destruct (read f) as [pdf|e] eqn:Hread;
    [|rewrite (post_read_raises w request env f e Hf Hread); reflexivity].
  destruct (post_cases w request env f pdf Hf Hread) as (pp & env1 & ps & _ & _ & H).
  cbv zeta in H. fold format in H.
  set (c1 := options format true (Some 60) pp) in *.
  set (c2 := options format false None pp) in *.
  rewrite H. unfold last_conversion.
  destruct (convert_from_bytes w pdf c1) as [images|e1] eqn:H1.
  - cbn [trace].
    rewrite (conversions_of_run w format env1 _ f ps _ (package_run w format images env1)).
    cbn [conversions map last fst snd]. rewrite H1. exists env1. split; [reflexivity|].
    now apply (saves_of_run w format).
  - destruct (convert_from_bytes w pdf c2) as [images|e2] eqn:H2.
    + cbn [trace].
      rewrite (conversions_of_run w format env1 _ f ps _ (package_run w format images env1)).
      cbn [conversions map last fst snd]. rewrite H2. exists env1. split; [reflexivity|].
      now apply (saves_of_run w format).
    + cbn [trace]. rewrite <- (app_nil_r [_; _]).
      rewrite (conversions_of_run w format env1 (mkOutcome (Ok tt) env1 []) f ps);
        [|repeat split; cbn; intros; contradiction].
      cbn [conversions map last fst snd]. rewrite H2. split; [reflexivity|].
      cbn. now rewrite !saves_app, saves_probes.
Qed.


Lemma encoding_run_saves {A} w (format : string) env (o : outcome A) :
  encoding_run w format env o ->
  forall f, In f (saves (trace o)) -> f = save_kwargs format.
Proof.
  intros (_ & Hev & _). induction (trace o) as [|ev tr IH]; [contradiction|].
  destruct (Hev ev (or_introl eq_refl)) as [img ->]. cbn.
  intros f [<-|Hin]; [reflexivity|].
  apply IH; [|exact Hin]. intros ev' Hin'. apply Hev. now right.
Qed.

(** The calls of the rasterization routine in a run that gets past
    the read, and the variable after it. *)
Lemma post_conversions w request env (f : UploadedFile) (pdf : bytes) :
  getitem (FILES request) "pdf" = Some f ->
  read f = Ok pdf ->
  let format := lower (get (POST request) "format" "jpg") in
  let o := PdfToJpgView_post w request env in
  exists pp,
    (truthy env = true -> env_after o = env)
    /\ (forall p, env = Some p -> truthy env = true -> path_exists w p = false ->
        pp = None)
    /\ let c1 := options format true (Some 60) pp in
       let c2 := options format false None pp in
       conversions (trace o)
       = match convert_from_bytes w pdf c1 with
         | Ok _ => [(pdf, c1)]
         | Raise _ => [(pdf, c1); (pdf, c2)]
         end.
Proof.
  intros Hf Hread format o.
  destruct (post_cases w request env f pdf Hf Hread) as (pp & env1 & ps & Henv & Hgone & H).
  cbv zeta in H. fold format in H. fold o in H.
  exists pp. split; [|split; [exact Hgone|]].
  - intros Ht. rewrite <- (Henv Ht). rewrite H.
    destruct (convert_from_bytes w pdf _); [reflexivity|].
    destruct (convert_from_bytes w pdf _); reflexivity.
  - intros c1 c2. rewrite H. fold c1 c2.
    destruct (convert_from_bytes w pdf c1) as [images|e1].
    + cbn [trace]. apply (conversions_of_run w format env1). apply package_run.
    + destruct (convert_from_bytes w pdf c2) as [images|e2].
      * cbn [trace]. apply (conversions_of_run w format env1). apply package_run.
      * cbn [trace]. rewrite <- (app_nil_r [_; _]).
        apply (conversions_of_run w format env1 (mkOutcome (Ok tt) env1 [])).
        repeat split; cbn; intros; contradiction.
Qed.

(** ** The set-up at import *)

Lemma first_existing_cons w (q : string) (paths : list string) env :
  first_existing w (q :: paths) env =
    if path_exists w q then mkOutcome (Ok (Some q)) env [EvExists q]
    else
      let o := first_existing w paths env in
      mkOutcome (returned o) (env_after o) (EvExists q :: trace o).
Proof.
  cbn [first_existing]. unfold bind. rewrite exists__eq.
  cbn [returned env_after trace]. now destruct (path_exists w q).
Qed.

Lemma first_existing_found w (before : list string) (p : string) (after : list string) env :
  (forall q, In q before -> path_exists w q = false) ->
  path_exists w p = true ->
  first_existing w (before ++ p :: after) env
  = mkOutcome (Ok (Some p)) env (map EvExists (before ++ [p])).
Proof.
  intros Hb Hp. induction before as [|q before IH].
  - change ([] ++ p :: after)%list with (p :: after).
    now rewrite first_existing_cons, Hp.
  - change ((q :: before) ++ p :: after)%list with (q :: (before ++ p :: after))%list.
    rewrite first_existing_cons, (Hb q (or_introl eq_refl)), IH; [reflexivity|].
    intros q' Hq'. apply Hb. now right.
Qed.

Lemma first_existing_none w (paths : list string) env :
  (forall q, In q paths -> path_exists w q = false) ->
  first_existing w paths env = mkOutcome (Ok None) env (map EvExists paths).
Proof.
  intros Hb. induction paths as [|q paths IH]; [reflexivity|].
  rewrite first_existing_cons, (Hb q (or_introl eq_refl)), IH; [reflexivity|].
  intros q' Hq'. apply Hb. now right.
Qed.

Lemma pjoin_truthy (p c : string) : truthy (Some (p // c)) = true.
Proof. unfold pjoin. destruct p; reflexivity. Qed.

Lemma possible_paths_truthy w (p : string) :
  In p (possible_paths w) -> truthy (Some p) = true.
Proof.
  unfold possible_paths. intros [<-|[<-|[<-|[<-|[]]]]]; apply pjoin_truthy.
Qed.

Lemma install_poppler_run w env :
  let argv := [sys_executable w; install_script w] in
  install_poppler w env =
    if path_exists w (install_script w)
    then mkOutcome (Ok tt)
           (match installed_at (subprocess_run w argv) with
            | Some p => Some p
            | None => env
            end)
           [EvExists (install_script w); EvRun argv]
    else mkOutcome (Ok tt) env [EvExists (install_script w)].
Proof.
  intros argv. unfold install_poppler, try_except, bind.
  rewrite exists__eq. cbn [returned env_after trace].
  destruct (path_exists w (install_script w)); [|reflexivity].
  rewrite run_eq. fold argv. cbn [returned env_after trace].
  unfold installed_at.
  destruct (subprocess_run w argv) as [r|e]; [|reflexivity].
  destruct ((returncode r =? 0)%Z && str_in "Poppler installed at:" (stdout r));
    [|reflexivity].
  destruct (re_search_group1 "Poppler installed at: " (stdout r)); reflexivity.
Qed.

Lemma probes_map (ps : list string) : probes (map (@EvExists image) ps) = ps.
Proof. induction ps as [|p ps IH]; [reflexivity|]. cbn. now rewrite IH. Qed.

Lemma runs_map (ps : list string) : runs (map (@EvExists image) ps) = [].
Proof. induction ps as [|p ps IH]; [reflexivity|exact IH]. Qed.

Lemma runs_app (a b : list (@event image)) : runs (a ++ b) = (runs a ++ runs b)%list.
Proof.
  induction a as [|ev a IH]; [reflexivity|].
  destruct ev; cbn; rewrite IH; reflexivity.
Qed.

Local Arguments first_existing : simpl never.
Local Arguments install_poppler : simpl never.
Local Arguments possible_paths : simpl never.

Lemma module_setup_found w env (before : list string) (p : string) (after : list string) :
  truthy env = false ->
  possible_paths w = (before ++ p :: after)%list ->
  (forall q, In q before -> path_exists w q = false) ->
  path_exists w p = true ->
  module_setup w env = mkOutcome (Ok tt) (Some p) (map EvExists (before ++ [p])).
Proof.
  intros Henv Hpaths Hb Hp. unfold module_setup, bind, environ_get.
  cbn [returned env_after trace]. rewrite Henv. cbn [negb].
  rewrite Hpaths, (first_existing_found w before p after env Hb Hp).
  cbn [returned env_after trace].
  assert (Ht : truthy (Some p) = true).
  { apply (possible_paths_truthy w). rewrite Hpaths. apply in_elt. }
  destruct p as [|c p]; [discriminate Ht|].
  cbn. now rewrite app_nil_r.
Qed.

Lemma module_setup_none w env :
  truthy env = false ->
  (forall q, In q (possible_paths w) -> path_exists w q = false) ->
  let i := install_poppler w env in
  module_setup w env
  = mkOutcome (returned i) (env_after i) (map EvExists (possible_paths w) ++ trace i).
Proof.
  intros Henv Hnone i. unfold module_setup, bind, environ_get.
  cbn [returned env_after trace]. rewrite Henv. cbn [negb].
  rewrite (first_existing_none w _ env Hnone).
  cbn [returned env_after trace]. fold i.
  pose proof (install_poppler_run w env) as Hi. cbv zeta in Hi. fold i in Hi.
  rewrite Hi. destruct (path_exists w (install_script w)); reflexivity.
Qed.

(** ** The Poppler path of a request, in full *)

Lemma find_poppler_eq w env :
  let a := base_dir w // "poppler" // "poppler-23.11.0" // "Library" // "bin" in
  let b := base_dir w // "poppler" // "Library" // "bin" in
  find_poppler w env =
    if truthy env then
      match env with
      | Some p =>
          mkOutcome (Ok (if path_exists w p then Some p else None)) env [EvExists p]
      | None => mkOutcome (Ok None) env []
      end
    else if path_exists w a then
      mkOutcome (Ok (Some a)) (Some a) [EvExists a; EvExists a]
    else if path_exists w b then
      mkOutcome (Ok (Some b)) (Some b) [EvExists a; EvExists b; EvExists b]
    else mkOutcome (Ok env) env [EvExists a; EvExists b].
Proof.
  intros a b.
  assert (Ha : truthy (Some a) = true) by apply pjoin_truthy.
  assert (Hb : truthy (Some b) = true) by apply pjoin_truthy.
  unfold find_poppler, bind, environ_get. cbn [returned env_after trace].
  destruct (truthy env) eqn:Ht.
  - destruct env as [[|c p]|]; try discriminate Ht. cbn.
    now destruct (path_exists w (String c p)).
  - cbn [negb]. fold a b.
    assert (Hp : probe w [a; b] env env =
      if path_exists w a then mkOutcome (Ok (Some a)) (Some a) [EvExists a]
      else if path_exists w b then mkOutcome (Ok (Some b)) (Some b) [EvExists a; EvExists b]
      else mkOutcome (Ok env) env [EvExists a; EvExists b]).
    { unfold probe, bind, environ_set, ret, exists_, emit. cbn.
      destruct (path_exists w a); [reflexivity|].
      destruct (path_exists w b); reflexivity. }
    rewrite Hp.
    destruct (path_exists w a) eqn:Ea.
    + cbn [returned env_after trace]. destruct a as [|c a']; [discriminate Ha|].
      rewrite exists__eq, Ea. reflexivity.
    + destruct (path_exists w b) eqn:Eb.
      * cbn [returned env_after trace]. destruct b as [|c b']; [discriminate Hb|].
        rewrite exists__eq, Eb. reflexivity.
      * cbn [returned env_after trace].
        destruct env as [[|c p]|]; try discriminate Ht; reflexivity.
Qed.

(** What [find_poppler] hands to the attempts is the value of the
    variable after it, and exists, whenever it is a path at all. *)
Lemma find_poppler_path w env (p : string) :
  truthy (returned_path (find_poppler w env)) = true ->
  returned_path (find_poppler w env) = Some p ->
  path_exists w p = true /\ env_after (find_poppler w env) = Some p.
Proof.
  pose proof (find_poppler_eq w env) as H. cbv zeta in H. rewrite H. clear H.
  set (a := base_dir w // "poppler" // "poppler-23.11.0" // "Library" // "bin").
  set (b := base_dir w // "poppler" // "Library" // "bin").
  unfold returned_path.
  destruct (truthy env) eqn:Ht.
  - destruct env as [q|]; [|discriminate Ht]. cbn.
    destruct (path_exists w q) eqn:E; [|discriminate].
    intros _ [= <-]. now split.
  - destruct (path_exists w a) eqn:Ea; cbn.
    + intros _ [= <-]. now split.
    + destruct (path_exists w b) eqn:Eb; cbn.
      * intros _ [= <-]. now split.
      * intros Hp. rewrite Hp in Ht. discriminate Ht.
Qed.

(** The variable after [find_poppler]: as before, or one of the two
    directories, found on disk while the variable was unset. *)
Lemma find_poppler_env w env :
  env_after (find_poppler w env) = env
  \/ (truthy env = false
      /\ exists p, In p (likely_paths w) /\ path_exists w p = true
                   /\ env_after (find_poppler w env) = Some p).
Proof.
  pose proof (find_poppler_eq w env) as H. cbv zeta in H. rewrite H. clear H.
  unfold likely_paths.
  set (a := base_dir w // "poppler" // "poppler-23.11.0" // "Library" // "bin").
  set (b := base_dir w // "poppler" // "Library" // "bin").
  destruct (truthy env) eqn:Ht.
  - left. now destruct env.
  - destruct (path_exists w a) eqn:Ea.
    + right. split; [reflexivity|]. exists a. split; [left; reflexivity|]. now split.
    + destruct (path_exists w b) eqn:Eb.
      * right. split; [reflexivity|].
        exists b. split; [right; left; reflexivity|]. now split.
      * now left.
Qed.

Lemma find_poppler_only_probes w env :
  exists pp ps,
    find_poppler w env = mkOutcome (Ok pp) (env_after (find_poppler w env)) (map EvExists ps).
Proof.
  destruct (find_poppler_run w env) as (pp & env1 & ps & H & _).
  exists pp, ps. now rewrite H.
Qed.

(** ** Encoding, case by case *)

(** The encoding loop saves the pages in order until a [save] raises:
    it returns the entries of all pages, or raises what the first
    failing [save] raised, after which nothing is saved. *)
Lemma write_pages_cases w (format : string) (images : list image) (i : nat) env :
  (exists datas,
     Forall2 (fun img data => Image_save w img (save_kwargs format) = Ok data) images datas
     /\ write_pages w format i images env
        = mkOutcome (Ok (combine (map (page_name format) (seq i (length images))) datas))
            env (map (fun img => EvSave img (save_kwargs format)) images))
  \/ (exists before img after e,
        images = (before ++ img :: after)%list
        /\ Forall (fun x => exists data, Image_save w x (save_kwargs format) = Ok data) before
        /\ Image_save w img (save_kwargs format) = Raise e
        /\ write_pages w format i images env
           = mkOutcome (Raise e) env
               (map (fun x => EvSave x (save_kwargs format)) (before ++ [img]))).
Proof.
  revert i. induction images as [|img rest IH]; intros i.
  - left. exists []. split; [constructor|reflexivity].
  - destruct (Image_save w img (save_kwargs format)) as [data|e] eqn:Hs.
    + destruct (IH (S i)) as [(datas & Hall & Hw)|(before & x & after & e & -> & Hb & Hx & Hw)].
      * left. exists (data :: datas). split; [now constructor|].
        now apply write_pages_ok; constructor.
      * right. exists (img :: before), x, after, e.
        split; [reflexivity|]. split; [constructor; [now exists data|exact Hb]|].
        split; [exact Hx|].
        rewrite write_pages_cons, Hs. cbv zeta. rewrite Hw. reflexivity.
    + right. exists [], img, rest, e.
      split; [reflexivity|]. split; [constructor|]. split; [exact Hs|].
      rewrite write_pages_cons, Hs. reflexivity.
Qed.

Lemma package_cases w (format : string) (images : list image) env :
  (images = []
   /\ package w format images env
      = mkOutcome
          (Ok (HttpResponse_ "Failed to extract images from PDF (no images extracted)" None 500))
          env [])
  \/ (images <> []
      /\ Forall (fun x => exists data, Image_save w x (save_kwargs format) = Ok data) images
      /\ exists response,
           is_attachment response
           /\ package w format images env
              = mkOutcome (Ok response) env
                  (map (fun img => EvSave img (save_kwargs format)) images))
  \/ (exists before img after e,
        images = (before ++ img :: after)%list
        /\ Forall (fun x => exists data, Image_save w x (save_kwargs format) = Ok data) before
        /\ Image_save w img (save_kwargs format) = Raise e
        /\ package w format images env
           = mkOutcome (Raise e) env
               (map (fun x => EvSave x (save_kwargs format)) (before ++ [img]))).
Proof.
  destruct images as [|img [|img2 rest]].
  - left. split; reflexivity.
  - unfold package, bind, save_page. rewrite save_eq. cbn [returned env_after trace].
    destruct (Image_save w img (save_kwargs format)) as [data|e] eqn:Hs.
    + right. left. split; [discriminate|]. split; [repeat constructor; now exists data|].
      eexists. split; [|reflexivity]. now eexists _, _, _.
    + right. right. exists [], img, [], e. repeat split; auto.
  - destruct (write_pages_cases w format (img :: img2 :: rest) 0 env)
      as [(datas & Hall & Hw)|(before & x & after & e & Heq & Hb & Hx & Hw)].
    + right. left. split; [discriminate|]. split.
      * clear Hw. induction Hall as [|y d ys ds Hy _ IH]; constructor; [now exists d|exact IH].
      * unfold package, bind. rewrite Hw. cbn [returned env_after trace].
        eexists. split; [|now rewrite app_nil_r]. now eexists _, _, _.
    + right. right. exists before, x, after, e.
      split; [exact Heq|]. split; [exact Hb|]. split; [exact Hx|].
      unfold package, bind. rewrite Hw. reflexivity.
Qed.

(** ** The handler, with the path resolution spelled out *)

Lemma post_full w request env (f : UploadedFile) (pdf : bytes) :
  getitem (FILES request) "pdf" = Some f ->
  read f = Ok pdf ->
  let format := lower (get (POST request) "format" "jpg") in
  let fp := find_poppler w env in
  let c1 := options format true (Some 60) (returned_path fp) in
  let c2 := options format false None (returned_path fp) in
  let finish (cs : list event) (images : list image) :=
    let k := package w format images (env_after fp) in
    mkOutcome
      (Ok (match returned k with Ok response => response | Raise e => on_exception e end))
      (env_after fp) (EvRead f :: trace fp ++ cs ++ trace k)%list in
  PdfToJpgView_post w request env =
    match convert_from_bytes w pdf c1 with
    | Ok images => finish [EvConvertFromBytes pdf c1] images
    | Raise _ =>
        match convert_from_bytes w pdf c2 with
        | Ok images => finish [EvConvertFromBytes pdf c1; EvConvertFromBytes pdf c2] images
        | Raise _ =>
            mkOutcome (Ok (HttpResponse_ conversion_failed None 500)) (env_after fp)
              (EvRead f :: trace fp
                 ++ [EvConvertFromBytes pdf c1; EvConvertFromBytes pdf c2])%list
        end
    end.
Proof.
  intros Hf Hread format fp c1 c2 finish.
  destruct (find_poppler_only_probes w env) as (pp & ps & Hfp). fold fp in Hfp.
  rewrite (post_run w request env f pdf pp (env_after fp) ps Hf Hread Hfp).
  fold format. rewrite convert_pdf_run.
  assert (Hpp : returned_path fp = pp) by (unfold returned_path; now rewrite Hfp).
  assert (Htr : trace fp = map EvExists ps) by now rewrite Hfp.
  subst c1 c2 finish. rewrite Hpp, Htr.
  destruct (convert_from_bytes w pdf _) as [images|e1]; cbn [returned env_after trace].
  - destruct (package_run w format images (env_after fp)) as (-> & _).
    rewrite <- app_comm_cons, <- app_assoc. reflexivity.
  - destruct (convert_from_bytes w pdf _) as [images|e2]; cbn [returned env_after trace].
    + destruct (package_run w format images (env_after fp)) as (-> & _).
      rewrite <- app_comm_cons, <- app_assoc. reflexivity.
    + reflexivity.
Qed.

(** Every run of [PdfToJpgView.post], by where it ends. *)
Lemma post_outcomes w request env :
  let format := lower (get (POST request) "format" "jpg") in
  let fp := find_poppler w env in
  let c1 := options format true (Some 60) (returned_path fp) in
  let c2 := options format false None (returned_path fp) in
  let o := PdfToJpgView_post w request env in
  (getitem (FILES request) "pdf" = None
   /\ o = mkOutcome (Ok (HttpResponse_ "No PDF file uploaded" None 400)) env [])
  \/ exists f,
       getitem (FILES request) "pdf" = Some f
       /\ ((exists e, read f = Raise e /\ o = mkOutcome (Ok (on_exception e)) env [EvRead f])
           \/ exists pdf ps,
                read f = Ok pdf /\ trace fp = map EvExists ps
                /\ ((exists e1 e2,
                       convert_from_bytes w pdf c1 = Raise e1
                       /\ convert_from_bytes w pdf c2 = Raise e2
                       /\ o = mkOutcome (Ok (HttpResponse_ conversion_failed None 500))
                                (env_after fp)
                                (EvRead f :: map EvExists ps
                                   ++ [EvConvertFromBytes pdf c1;
                                       EvConvertFromBytes pdf c2])%list)
                    \/ exists images cs,
                         ((cs = [EvConvertFromBytes pdf c1]
                           /\ convert_from_bytes w pdf c1 = Ok images)
                          \/ (cs = [EvConvertFromBytes pdf c1; EvConvertFromBytes pdf c2]
                              /\ (exists e1, convert_from_bytes w pdf c1 = Raise e1)
                              /\ convert_from_bytes w pdf c2 = Ok images))
                         /\ let k := package w format images (env_after fp) in
                            o = mkOutcome
                                  (Ok (match returned k with
                                       | Ok response => response
                                       | Raise e => on_exception e
                                       end))
                                  (env_after fp)
                                  (EvRead f :: map EvExists ps ++ cs ++ trace k)%list)).
Proof.
  intros format fp c1 c2 o. subst o.
  destruct (getitem (FILES request) "pdf") as [f|] eqn:Hf;
    [right; exists f; split; [reflexivity|]
    |left; split; [reflexivity|apply post_missing; exact Hf]].
  destruct (read f) as [pdf|e] eqn:Hread;
    [right|left; exists e; split; [reflexivity|now apply post_read_raises]].
  destruct (find_poppler_only_probes w env) as (pp & ps & Hfp). fold fp in Hfp.
  assert (Htr : trace fp = map EvExists ps) by now rewrite Hfp.
  exists pdf, ps. split; [reflexivity|]. split; [exact Htr|].
  pose proof (post_full w request env f pdf Hf Hread) as H. cbv zeta in H.
  fold format fp c1 c2 in H. rewrite Htr in H.
  destruct (convert_from_bytes w pdf c1) as [images|e1] eqn:H1.
  - right. exists images, [EvConvertFromBytes pdf c1].
    split; [left; now split|exact H].
  - destruct (convert_from_bytes w pdf c2) as [images|e2] eqn:H2.
    + right. exists images, [EvConvertFromBytes pdf c1; EvConvertFromBytes pdf c2].
      split; [right; split; [reflexivity|split; [now exists e1|reflexivity]]|exact H].
    + left. exists e1, e2. now repeat split.
Qed.

Lemma on_exception_is_error (e : exn) : is_error (on_exception e).
Proof. destruct e; cbn; unfold is_error; cbn; auto. Qed.

Lemma attachment_not_error (response : HttpResponse) :
  is_attachment response -> status response = 200.
Proof. now intros (body & ct & fn & ->). Qed.

Lemma reads_app (a b : list (@event image)) : reads (a ++ b) = (reads a ++ reads b)%list.
Proof.
  induction a as [|ev a IH]; [reflexivity|].
  destruct ev; cbn; rewrite IH; reflexivity.
Qed.

Lemma probes_app (a b : list (@event image)) : probes (a ++ b) = (probes a ++ probes b)%list.
Proof.
  induction a as [|ev a IH]; [reflexivity|].
  destruct ev; cbn; rewrite IH; reflexivity.
Qed.

Lemma reads_probes (ps : list string) : reads (map (@EvExists image) ps) = [].
Proof. induction ps; [reflexivity|assumption]. Qed.

Section Saves.
Variable kw : save_format.

Lemma conversions_saves (l : list image) :
  conversions (map (fun img => EvSave img kw) l) = [].
Proof. induction l; [reflexivity|assumption]. Qed.

Lemma reads_saves (l : list image) : reads (map (fun img => EvSave img kw) l) = [].
Proof. induction l; [reflexivity|assumption]. Qed.

Lemma probes_saves (l : list image) : probes (map (fun img => EvSave img kw) l) = [].
Proof. induction l; [reflexivity|assumption]. Qed.

Lemma saves_saves (l : list image) :
  saves (map (fun img => EvSave img kw) l) = repeat kw (length l).
Proof. induction l as [|x l IH]; [reflexivity|]. cbn. now rewrite IH. Qed.
End Saves.

Lemma write_pages_raises_at w (format : string) (before : list image) (img : image)
  (after : list image) (e : exn) (i : nat) env :
  Forall (fun x => exists data, Image_save w x (save_kwargs format) = Ok data) before ->
  Image_save w img (save_kwargs format) = Raise e ->
  write_pages w format i (before ++ img :: after) env
  = mkOutcome (Raise e) env (map (fun x => EvSave x (save_kwargs format)) (before ++ [img])).
Proof.
  intros Hb Hx. revert i. induction Hb as [|y before [data Hy] _ IH]; intros i.
  - change ([] ++ img :: after)%list with (img :: after).
    now rewrite write_pages_cons, Hx.
  - change ((y :: before) ++ img :: after)%list with (y :: (before ++ img :: after))%list.
    rewrite write_pages_cons, Hy. cbv zeta. now rewrite IH.
Qed.

Lemma package_raises_at w (format : string) (before : list image) (img : image)
  (after : list image) (e : exn) env :
  Forall (fun x => exists data, Image_save w x (save_kwargs format) = Ok data) before ->
  Image_save w img (save_kwargs format) = Raise e ->
  package w format (before ++ img :: after) env
  = mkOutcome (Raise e) env (map (fun x => EvSave x (save_kwargs format)) (before ++ [img])).
Proof.
  intros Hb Hx.
  pose proof (write_pages_raises_at w format before img after e 0 env Hb Hx) as Hw.
  destruct (before ++ img :: after)%list as [|y [|z rest]] eqn:E.
  - now destruct before.
  - destruct before as [|y' [|y'' before]]; [|discriminate E|discriminate E].
    injection E as <- _.
    unfold package, bind, save_page. rewrite save_eq, Hx. reflexivity.
  - unfold package, bind. now rewrite Hw.
Qed.

(** ** Strings *)

Lemma length_append (s t : string) :
  String.length (s ++ t) = String.length s + String.length t.
Proof. induction s as [|c s IH]; [reflexivity|]. cbn. now rewrite IH. Qed.

Lemma append_inv_r (s1 s2 t : string) : s1 ++ t = s2 ++ t -> s1 = s2.
Proof.
  revert s2. induction s1 as [|a s1 IH]; intros [|b s2] H; cbn in H.
  - reflexivity.
  - apply (f_equal String.length) in H. cbn in H. rewrite length_append in H. lia.
  - apply (f_equal String.length) in H. cbn in H. rewrite length_append in H. lia.
  - injection H as -> H. now rewrite (IH s2 H).
Qed.

Lemma str_of_nat_inj (n m : nat) : str_of_nat n = str_of_nat m -> n = m.
Proof.
  unfold str_of_nat. intros H.
  apply (f_equal NilEmpty.uint_of_string) in H. rewrite !NilEmpty.usu in H.
  injection H as H. apply (f_equal Nat.of_uint) in H.
  now rewrite !DecimalNat.Unsigned.of_to in H.
Qed.

Lemma page_name_inj (format : string) (i j : nat) :
  page_name format i = page_name format j -> i = j.
Proof.
  unfold page_name. intros H. cbn in H. injection H as H.
  apply append_inv_r, str_of_nat_inj in H. lia.
Qed.











(** ** The candidates, by cases *)

Lemma paths_cases w (paths : list string) :
  (exists before p after,
     paths = (before ++ p :: after)%list
     /\ (forall q, In q before -> path_exists w q = false)
     /\ path_exists w p = true)
  \/ (forall q, In q paths -> path_exists w q = false).
Proof.
  induction paths as [|p paths IH]; [right; intros q []|].
  destruct (path_exists w p) eqn:Hp.
  - left. exists [], p, paths. split; [reflexivity|]. split; [intros q []|exact Hp].
  - destruct IH as [(before & q & after & -> & Hb & Hq)|Hnone].
    + left. exists (p :: before), q, after. split; [reflexivity|]. split; [|exact Hq].
      intros x [<-|Hx]; [exact Hp|now apply Hb].
    + right. intros x [<-|Hx]; [exact Hp|now apply Hnone].
Qed.

Lemma getitem_last {A} (d : MultiValueDict A) (key : string) (v : A) :
  getitem (d ++ [(key, v)])%list key = Some v.
Proof.
  unfold getitem, getlist. rewrite filter_app, !map_app. cbn.
  rewrite String.eqb_refl. cbn. apply last_last.
Qed.

Lemma map_fst_combine {A B} (l : list A) (l' : list B) :
  length l = length l' -> map fst (combine l l') = l.
Proof.
  revert l'. induction l as [|a l IH]; intros [|b l'] H; try discriminate; [reflexivity|].
  cbn. rewrite IH; [reflexivity|]. now injection H.
Qed.

(** ** The set-up at import, by cases *)

Lemma module_setup_set w env :
  truthy env = true -> module_setup w env = mkOutcome (Ok tt) env [].
Proof.
  intros Ht. unfold module_setup, bind, environ_get. cbn [returned env_after trace].
  now rewrite Ht.
Qed.

(** Every run of [module_setup]. *)
Lemma module_setup_outcomes w env :
  let argv := [sys_executable w; install_script w] in
  let o := module_setup w env in
  (truthy env = true /\ o = mkOutcome (Ok tt) env [])
  \/ (truthy env = false
      /\ ((exists before p after,
             possible_paths w = (before ++ p :: after)%list
             /\ (forall q, In q before -> path_exists w q = false)
             /\ path_exists w p = true
             /\ o = mkOutcome (Ok tt) (Some p) (map EvExists (before ++ [p])))
          \/ ((forall q, In q (possible_paths w) -> path_exists w q = false)
              /\ ((path_exists w (install_script w) = false
                   /\ o = mkOutcome (Ok tt) env
                            (map EvExists (possible_paths w ++ [install_script w])))
                  \/ (path_exists w (install_script w) = true
                      /\ o = mkOutcome (Ok tt)
                               (match installed_at (subprocess_run w argv) with
                                | Some p => Some p
                                | None => env
                                end)
                               (map EvExists (possible_paths w ++ [install_script w])
                                  ++ [EvRun argv])))))).
Proof.
  intros argv o. subst o.
  destruct (truthy env) eqn:Ht; [left; split; [reflexivity|now apply module_setup_set]|].
  right. split; [reflexivity|].
  destruct (paths_cases w (possible_paths w)) as [(before & p & after & Hp & Hb & He)|Hnone].
  - left. exists before, p, after. repeat split; try assumption.
    now apply (module_setup_found w env before p after).
  - right. split; [exact Hnone|].
    pose proof (module_setup_none w env Ht Hnone) as H. cbv zeta in H.
    pose proof (install_poppler_run w env) as Hi. cbv zeta in Hi. fold argv in Hi.
    destruct (path_exists w (install_script w)) eqn:Hs; rewrite Hi in H; rewrite H;
      cbn [returned env_after trace]; [right|left]; (split; [reflexivity|]);
      rewrite !map_app; cbn [map]; now rewrite <- ?app_assoc.
Qed.

(** ** [JpgToPdfView.post], by cases *)

Lemma reads_cases (files : list UploadedFile) :
  (exists datas, map read files = map Ok datas)
  \/ (exists before f after e datas,
        files = (before ++ f :: after)%list
        /\ map read before = map Ok datas /\ read f = Raise e).
Proof.
  induction files as [|f files IH]; [left; now exists []|].
  destruct (read f) as [data|e] eqn:Hf.
  - destruct IH as [(datas & H)|(before & g & after & e & datas & -> & Hb & Hg)].
    + left. exists (data :: datas). cbn. now rewrite Hf, H.
    + right. exists (f :: before), g, after, e, (data :: datas).
      split; [reflexivity|]. split; [cbn; now rewrite Hf, Hb|exact Hg].
  - right. exists [], f, files, e, []. now repeat split.
Qed.

Lemma mapM_read_raises (before : list UploadedFile) (f : UploadedFile)
  (after : list UploadedFile) (e : exn) (datas : list bytes) env :
  map read before = map Ok datas ->
  read f = Raise e ->
  mapM (@read_ image) (before ++ f :: after) env
  = mkOutcome (Raise e) env (map EvRead (before ++ [f])).
Proof.
  revert datas. induction before as [|g before IH]; intros datas Hb Hf.
  - change ([] ++ f :: after)%list with (f :: after).
    cbn [mapM]. unfold bind. now rewrite read__eq, Hf.
  - destruct datas as [|d datas]; [discriminate Hb|]. cbn in Hb. injection Hb as Hg Hb.
    change ((g :: before) ++ f :: after)%list with (g :: (before ++ f :: after))%list.
    cbn [mapM]. unfold bind. rewrite read__eq. cbn [returned env_after trace].
    rewrite Hg. rewrite (IH datas Hb Hf). reflexivity.
Qed.

Lemma jpg_post_outcomes w request env :
  let images := getlist (FILES request) "images" in
  let o := JpgToPdfView_post w request env in
  (images = [] /\ o = mkOutcome (Ok (HttpResponse_ "No images provided" None 400)) env [])
  \/ (images <> []
      /\ ((exists before f after e datas,
             images = (before ++ f :: after)%list
             /\ map read before = map Ok datas /\ read f = Raise e
             /\ o = mkOutcome (Ok (HttpResponse_ ("Conversion failed: " ++ str_exn e) None 500))
                      env (map EvRead (before ++ [f])))
          \/ exists datas,
               map read images = map Ok datas
               /\ o = mkOutcome
                        (Ok (match img2pdf_convert w datas with
                             | Ok pdf_bytes =>
                                 {| content := pdf_bytes;
                                    content_type := Some "application/pdf"; status := 200;
                                    headers :=
                                      [("Content-Disposition", attachment "converted.pdf")] |}
                             | Raise e =>
                                 HttpResponse_ ("Conversion failed: " ++ str_exn e) None 500
                             end))
                        env (map EvRead images ++ [EvImg2pdf datas]))).
Proof.
  intros images o. subst o. unfold JpgToPdfView_post. fold images.
  destruct images as [|i0 rest] eqn:E; [left; now split|].
  right. split; [discriminate|]. rewrite <- E.
  assert (Hne : images <> []) by (subst images; rewrite E; discriminate).
  destruct (reads_cases images) as [(datas & Hr)|(before & f & after & e & datas & Hi & Hb & Hf)].
  - right. exists datas. split; [exact Hr|].
    rewrite E. unfold try_except, bind. rewrite <- E.
    rewrite (mapM_read _ _ _ Hr). cbn [returned env_after trace].
    unfold convert_, bind, emit, lift. cbn [returned env_after trace].
    destruct (img2pdf_convert w datas); cbn; now rewrite ?app_nil_r.
  - left. exists before, f, after, e, datas. split; [exact Hi|]. split; [exact Hb|].
    split; [exact Hf|].
    rewrite E. unfold try_except, bind. rewrite <- E. rewrite Hi.
    rewrite (mapM_read_raises before f after e datas env Hb Hf).
    cbn. now rewrite app_nil_r.
Qed.

(** ** The claims *)

(** C8: a HEAD request to the document-conversion route is answered
    200 with an empty body; no external call is made and the Poppler
    variable is left as it was, whatever the world and the variable
    are. *)
Theorem head_is_a_liveness_probe w request env :
  let o := PdfToJpgView_head w request env in
  (exists response, returned o = Ok response
     /\ status response = 200 /\ content response = "")
  /\ trace o = [] /\ env_after o = env.
Proof.
  simpl. split; [|split; reflexivity].
  eexists. split; [reflexivity|]. split; reflexivity.
Qed.

(** C5: a POST to the document-conversion route whose multipart body
    has no part named pdf is answered 400 with the body
    No PDF file uploaded; the handler returns (it does not raise) and
    makes no external call, so no conversion is attempted. *)
Theorem post_without_pdf_is_400 w request env :
  ~ In "pdf" (map fst (FILES request)) ->
  let o := PdfToJpgView_post w request env in
  returned o = Ok (HttpResponse_ "No PDF file uploaded" None 400)
  /\ trace o = [] /\ env_after o = env.
Proof.
  intros H. unfold PdfToJpgView_post, try_except, bind, getitem_.
  rewrite (getitem_absent _ _ H). simpl. repeat split.
Qed.

(** C6: the image-to-document POST.  With no file under images the
    answer is 400 with a message and nothing is called.  When the files
    are read and the assembly raises, the answer is 500 and carries the
    text of the exception.  When the assembly returns, the answer is
    200 with the document, content type application/pdf and the
    attachment name converted.pdf; the assembly was called once, on
    the contents in upload order. *)
Theorem jpg_to_pdf_post w request env :
  let images := getlist (FILES request) "images" in
  let o := JpgToPdfView_post w request env in
  (images = [] ->
     returned o = Ok (HttpResponse_ "No images provided" None 400) /\ trace o = [])
  /\ (forall data e,
        images <> [] -> map read images = map Ok data ->
        img2pdf_convert w data = Raise e ->
        returned o = Ok (HttpResponse_ ("Conversion failed: " ++ str_exn e) None 500))
  /\ (forall data pdf_bytes,
        images <> [] -> map read images = map Ok data ->
        img2pdf_convert w data = Ok pdf_bytes ->
        returned o =
          Ok {| content := pdf_bytes; content_type := Some "application/pdf";
                status := 200;
                headers := [("Content-Disposition", attachment "converted.pdf")] |}
        /\ trace o = (map EvRead images ++ [EvImg2pdf data])%list).
Proof.
  intros images o. subst o. unfold JpgToPdfView_post. fold images.
  split; [|split].
  - intros ->. split; reflexivity.
  - intros data e Hne Hread Hconv.
    destruct images as [|i0 rest] eqn:E; [congruence|].
    unfold try_except, bind. rewrite (mapM_read _ _ _ Hread). simpl.
    unfold convert_, bind, emit, lift. simpl. rewrite Hconv. reflexivity.
  - intros data pdf_bytes Hne Hread Hconv.
    destruct images as [|i0 rest] eqn:E; [congruence|].
    unfold try_except, bind. rewrite (mapM_read _ _ _ Hread). simpl.
    unfold convert_, bind, emit, lift. simpl. rewrite Hconv. simpl.
    split; reflexivity.
Qed.

(** C2: with the field pdf present, the rasterization routine is
    called at most twice.  It is not called when the read raises.
    Otherwise the first call has the pdftocairo backend on and a time
    limit of 60; a second call is made exactly when the first raised,
    with the backend off, no time limit, and the same Poppler path and
    format; there is never a third. *)
Theorem at_most_two_attempts w request env :
  In "pdf" (map fst (FILES request)) ->
  let calls := conversions (trace (PdfToJpgView_post w request env)) in
  length calls <= 2
  /\ exists f,
       getitem (FILES request) "pdf" = Some f
       /\ match read f with
          | Raise _ => calls = []
          | Ok pdf =>
              exists c1,
                use_pdftocairo c1 = true /\ timeout c1 = Some 60
                /\ match convert_from_bytes w pdf c1 with
                   | Ok _ => calls = [(pdf, c1)]
                   | Raise _ =>
                       exists c2,
                         calls = [(pdf, c1); (pdf, c2)]
                         /\ use_pdftocairo c2 = false /\ timeout c2 = None
                         /\ poppler_path c2 = poppler_path c1
                         /\ fmt c2 = fmt c1
                   end
          end.
Proof.
  intros Hin calls.
  destruct (getitem_present _ _ Hin) as [f Hf].
  destruct (read f) as [pdf|e] eqn:Hread.
  - destruct (post_cases w request env f pdf Hf Hread) as (pp & env1 & ps & _ & _ & H).
    cbv zeta in H.
    set (format := lower (get (POST request) "format" "jpg")) in *.
    set (c1 := options format true (Some 60) pp) in *.
    set (c2 := options format false None pp) in *.
    assert (Hcalls :
      calls = match convert_from_bytes w pdf c1 with
              | Ok _ => [(pdf, c1)]
              | Raise _ => [(pdf, c1); (pdf, c2)]
              end).
    { subst calls. rewrite H.
      destruct (convert_from_bytes w pdf c1) as [images|e1].
      - cbn [trace]. apply (conversions_of_run w format env1). apply package_run.
      - destruct (convert_from_bytes w pdf c2) as [images|e2].
        + cbn [trace]. apply (conversions_of_run w format env1). apply package_run.
        + cbn [trace]. rewrite <- (app_nil_r [_; _]).
          apply (conversions_of_run w format env1 (mkOutcome (Ok tt) env1 [])).
          repeat split; cbn; intros; contradiction. }
    split.
    + rewrite Hcalls. destruct (convert_from_bytes w pdf c1); cbn; lia.
    + exists f. split; [exact Hf|]. rewrite Hread.
      exists c1. split; [reflexivity|]. split; [reflexivity|].
      destruct (convert_from_bytes w pdf c1); [exact Hcalls|].
      exists c2. repeat split. exact Hcalls.
  - subst calls. rewrite (post_read_raises w request env f e Hf Hread). cbn.
    split; [lia|]. exists f. split; [exact Hf|]. now rewrite Hread.
Qed.

(** C3, as the code has it: when the second attempt raises as well,
    the answer is 500 and its message blames the document or the
    toolchain; when the rasterization returns no page, the answer is
    500 with a message of its own, which only says that no image was
    extracted. *)
Theorem failed_rasterization_is_500 w request env :
  let o := PdfToJpgView_post w request env in
  ((exists e, last_conversion w (trace o) = Some (Raise e)) ->
     returned o = Ok (HttpResponse_ conversion_failed None 500)
     /\ blames_document_or_toolchain conversion_failed = true)
  /\ (last_conversion w (trace o) = Some (Ok []) ->
      returned o
      = Ok (HttpResponse_ "Failed to extract images from PDF (no images extracted)" None 500)).
Proof.
  intros o. pose proof (post_outcome w request env) as H. cbv zeta in H. fold o in H.
  split.
  - intros [e He]. rewrite He in H. split; [exact (proj1 H)|reflexivity].
  - intros He. rewrite He in H. destruct H as (env1 & H & _). exact H.
Qed.



(** C10, as the code has it: a KeyError raised in the body outside the
    two rasterization attempts (by the lookup of the field, by the read
    of the upload, by the saving of a page) is answered 400 with the
    body No PDF file uploaded. *)
Theorem KeyError_outside_the_attempts_is_400 w request env :
  let o := PdfToJpgView_post w request env in
  getitem (FILES request) "pdf" = None
  \/ (exists ev, In ev (trace o) /\ is_conversion ev = false /\ event_KeyError w ev = true) ->
  returned o = Ok (HttpResponse_ "No PDF file uploaded" None 400).
Proof.
  intros o. subst o.
  destruct (getitem (FILES request) "pdf") as [f|] eqn:Hf;
    [|intros _; now rewrite (post_missing w request env Hf)].
  intros [Hnone|(ev & Hin & Hconv & Hkey)]; [discriminate Hnone|].
  destruct (read f) as [pdf|e] eqn:Hread.
  - destruct (post_cases w request env f pdf Hf Hread) as (pp & env1 & ps & _ & _ & H).
    cbv zeta in H.
    set (format := lower (get (POST request) "format" "jpg")) in *.
    set (c1 := options format true (Some 60) pp) in *.
    set (c2 := options format false None pp) in *.
    assert (Hpre : forall cs : list event,
      (forall c, In c cs -> is_conversion c = true) ->
      forall tr, In ev (EvRead f :: map EvExists ps ++ cs ++ tr)%list -> In ev tr).
    { intros cs Hcs tr [<-|Hev].
      - cbn in Hkey. rewrite Hread in Hkey. discriminate Hkey.
      - apply in_app_or in Hev as [Hev|Hev].
        + apply in_map_iff in Hev as (q & <- & _). discriminate Hkey.
        + apply in_app_or in Hev as [Hev|Hev]; [|exact Hev].
          rewrite (Hcs ev Hev) in Hconv. discriminate Hconv. }
    assert (Hfinish : forall images, In ev (trace (package w format images env1)) ->
      match returned (package w format images env1) with
      | Ok response => response
      | Raise e => on_exception e
      end = HttpResponse_ "No PDF file uploaded" None 400).
    { intros images Hev.
      destruct (package_run w format images env1) as (_ & Hsave & Hraise).
      destruct (Hsave ev Hev) as [img ->]. cbn in Hkey.
      destruct (Image_save w img (save_kwargs format)) as [data|[m|m]] eqn:Hs;
        try discriminate Hkey.
      now rewrite (Hraise img _ _ Hev Hs). }
    rewrite H in Hin |- *.
    destruct (convert_from_bytes w pdf c1) as [images|e1].
    + cbn [trace returned] in Hin |- *. f_equal. apply Hfinish.
      apply (Hpre [EvConvertFromBytes pdf c1]); [|exact Hin].
      intros c [<-|[]]. reflexivity.
    + destruct (convert_from_bytes w pdf c2) as [images|e2].
      * cbn [trace returned] in Hin |- *. f_equal. apply Hfinish.
        apply (Hpre [EvConvertFromBytes pdf c1; EvConvertFromBytes pdf c2]); [|exact Hin].
        intros c [<-|[<-|[]]]; reflexivity.
      * cbn [trace] in Hin. exfalso.
        rewrite <- (app_nil_r [_; _]) in Hin.
        apply (Hpre [EvConvertFromBytes pdf c1; EvConvertFromBytes pdf c2]) in Hin;
          [contradiction|].
        intros c [<-|[<-|[]]]; reflexivity.
  - rewrite (post_read_raises w request env f e Hf Hread) in Hin |- *.
    destruct Hin as [<-|[]]. cbn in Hkey. rewrite Hread in Hkey.
    destruct e; [reflexivity|discriminate Hkey].
Qed.

(** C4, as the code has it: the handler never writes the Poppler
    variable when it is set; when the path it holds is gone, the
    variable keeps that path, and only this request works without one:
    both rasterization attempts are called without a Poppler path. *)
Theorem set_location_is_left_alone w request env :
  truthy env = true ->
  let o := PdfToJpgView_post w request env in
  env_after o = env
  /\ (forall p, env = Some p -> path_exists w p = false ->
      forall pdf c, In (pdf, c) (conversions (trace o)) -> poppler_path c = None).
Proof.
  intros Ht o. subst o.
  destruct (getitem (FILES request) "pdf") as [f|] eqn:Hf;
    [|rewrite (post_missing w request env Hf); split; [reflexivity|intros; contradiction]].
  destruct (read f) as [pdf|e] eqn:Hread;
    [|rewrite (post_read_raises w request env f e Hf Hread);
      split; [reflexivity|intros; contradiction]].
  destruct (post_conversions w request env f pdf Hf Hread) as (pp & Henv & Hgone & Hc).
  cbv zeta in Hc. split; [exact (Henv Ht)|].
  intros p Hp Hmiss pdf' c Hin. rewrite Hc in Hin.
  rewrite (Hgone p Hp Ht Hmiss) in Hin.
  match type of Hin with context [match ?x with Ok _ => _ | Raise _ => _ end] =>
    destruct x end; cbn in Hin.
  - destruct Hin as [[= _ <-]|[]]. reflexivity.
  - destruct Hin as [[= _ <-]|[[= _ <-]|[]]]; reflexivity.
Qed.

(** C7, as the code has it: with the variable unset (or empty), the
    candidates are asked in order and the first that exists is taken,
    nothing being asked or run after it.  When none exists and the
    installer script is on disk, the installer is run once and the
    variable takes the path after the marker in its output, or stays as
    it was when the run raises, exits with another code, or prints no
    marker followed by a space.  When the script is not on disk, nothing
    is run and the variable stays as it was. *)
Theorem locator_at_import w env :
  truthy env = false ->
  first_candidate_wins w env
  /\ ((forall q, In q (possible_paths w) -> path_exists w q = false) ->
      (path_exists w (install_script w) = true -> installer_fallback w env)
      /\ (path_exists w (install_script w) = false ->
          runs (trace (module_setup w env)) = []
          /\ env_after (module_setup w env) = env)).
Proof.
  intros Henv. split.
  - intros before p after Hpaths Hb Hp o. subst o.
    rewrite (module_setup_found w env before p after Henv Hpaths Hb Hp).
    cbn [env_after trace]. split; [reflexivity|].
    split; [apply probes_map|apply runs_map].
  - intros Hnone.
    pose proof (module_setup_none w env Henv Hnone) as H. cbv zeta in H.
    pose proof (install_poppler_run w env) as Hi. cbv zeta in Hi.
    split; intros Hscript; rewrite Hscript in Hi; rewrite Hi in H.
    + unfold installer_fallback. cbv zeta. rewrite H. cbn [env_after trace].
      split; [|reflexivity]. now rewrite runs_app, runs_map.
    + rewrite H. cbn [env_after trace]. split; [|reflexivity].
      now rewrite runs_app, runs_map.
Qed.

(** ** Further properties of [PdfToJpgView.post] *)

(** Takes a run apart by where it ends; [fp] stands for the run of
    [find_poppler], [format] for the lowercased format. *)
Ltac post_by_cases w request env H :=
  pose proof (post_outcomes w request env) as H; cbv zeta in H;
  remember (find_poppler w env) as fp eqn:Efp in *;
  remember (lower (get (POST request) "format" "jpg")) as format eqn:Eformat in *;
  destruct H as
    [(?Hf & H)
    |(?f & ?Hf & [(?e & ?Hread & H)
                 |(?pdf & ?ps & ?Hread & ?Htr &
                   [(?e1 & ?e2 & ?H1 & ?H2 & H)|(?images & ?cs & ?Hcs & H)])])].

(** X1: the handler never raises.  Whatever the request, the
    filesystem and the libraries do, it returns an answer, and the
    answer is either 200 with a content type and one
    Content-Disposition header naming an attachment, or 400 or 500
    with the default content type and no header. *)
Theorem post_always_answers w request env :
  exists response,
    returned (PdfToJpgView_post w request env) = Ok response
    /\ (is_attachment response \/ is_error response).
Proof.
  post_by_cases w request env H; rewrite H; cbn [returned].
  - eexists. split; [reflexivity|]. right. unfold is_error. cbn. auto.
  - eexists. split; [reflexivity|]. right. apply on_exception_is_error.
  - eexists. split; [reflexivity|]. right. unfold is_error. cbn. auto.
  - eexists. split; [reflexivity|].
    destruct (package_cases w format images (env_after fp))
      as [(_ & ->)|[(_ & _ & r & Hr & ->)|(b & x & a & e & _ & _ & _ & ->)]];
      cbn [returned].
    + right. unfold is_error. cbn. auto.
    + now left.
    + right. apply on_exception_is_error.
Qed.

(** X2: an answer 400 always comes from a KeyError raised outside the
    rasterization attempts: the field pdf is missing, or the read of
    the upload or the saving of a page raised KeyError. *)
Theorem a_400_comes_from_a_KeyError w request env (response : HttpResponse) :
  let o := PdfToJpgView_post w request env in
  returned o = Ok response -> status response = 400 ->
  getitem (FILES request) "pdf" = None
  \/ exists ev, In ev (trace o) /\ is_conversion ev = false /\ event_KeyError w ev = true.
Proof.
  intros o. subst o.
  post_by_cases w request env H; rewrite H; cbn [returned trace].
  - now left.
  - intros [= <-] Hst. right. exists (EvRead f). split; [now left|]. split; [reflexivity|].
    cbn. rewrite Hread. now destruct e.
  - intros [= <-] Hst. discriminate Hst.
  - right.
    destruct (package_cases w format images (env_after fp))
      as [(_ & Hk)|[(_ & _ & r & Hr & Hk)|(b & x & a & e & _ & _ & Hx & Hk)]];
      rewrite Hk in *; cbn [returned trace] in *;
      match goal with Hr : Ok _ = Ok response |- _ => injection Hr as <- end.
    + discriminate.
    + rewrite (attachment_not_error r Hr) in *. discriminate.
    + exists (EvSave x (save_kwargs format)).
      split; [|split; [reflexivity|]].
      * right. apply in_or_app. right. apply in_or_app. right.
        rewrite map_app. apply in_or_app. right. now left.
      * cbn. rewrite Hx. now destruct e.
Qed.

(** X3: an answer 200 is an attachment, and is given only after the
    last rasterization call returned at least one page and every page
    was saved, once each and in page order, the saves being the last
    events of the run. *)
Theorem a_200_has_every_page_saved w request env (response : HttpResponse) :
  let format := lower (get (POST request) "format" "jpg") in
  let o := PdfToJpgView_post w request env in
  returned o = Ok response -> status response = 200 ->
  is_attachment response
  /\ exists pages,
       pages <> []
       /\ last_conversion w (trace o) = Some (Ok pages)
       /\ Forall (fun img => exists data, Image_save w img (save_kwargs format) = Ok data) pages
       /\ exists before,
            trace o = (before ++ map (fun img => EvSave img (save_kwargs format)) pages)%list
            /\ saves before = [].
Proof.
  intros format0 o. subst o format0.
  post_by_cases w request env H; rewrite H; cbn [returned trace].
  - intros [= <-] Hst. discriminate Hst.
  - intros [= <-] Hst. destruct e; discriminate Hst.
  - intros [= <-] Hst. discriminate Hst.
  - destruct (package_cases w format images (env_after fp))
      as [(_ & Hk)|[(Hne & Hall & r & Hr & Hk)|(b & x & a & e & _ & _ & Hx & Hk)]];
      rewrite Hk in *; cbn [returned trace] in *; intros [= <-] Hst.
    + discriminate Hst.
    + split; [exact Hr|]. exists images. split; [exact Hne|]. split; [|split; [exact Hall|]].
      * unfold last_conversion. cbn [conversions].
        rewrite !conversions_app, conversions_probes, conversions_saves, app_nil_r.
        destruct Hcs as [(-> & H1)|(-> & _ & H2)]; cbn; [now rewrite H1|now rewrite H2].
      * exists (EvRead f :: map EvExists ps ++ cs)%list.
        split; [now rewrite <- app_comm_cons, <- app_assoc|].
        cbn [saves]. rewrite saves_app, saves_probes.
        destruct Hcs as [(-> & _)|(-> & _)]; reflexivity.
    + destruct e; discriminate Hst.
Qed.

(** X4: when a save raises, the pages after it are not saved and the
    answer is built from that exception: 400 for a KeyError, 500 with
    its text otherwise. *)
Theorem a_failing_save_ends_the_encoding w request env
  (pages before after : list image) (img : image) (e : exn) :
  let format := lower (get (POST request) "format" "jpg") in
  let o := PdfToJpgView_post w request env in
  last_conversion w (trace o) = Some (Ok pages) ->
  pages = (before ++ img :: after)%list ->
  Forall (fun x => exists data, Image_save w x (save_kwargs format) = Ok data) before ->
  Image_save w img (save_kwargs format) = Raise e ->
  returned o = Ok (on_exception e)
  /\ saves (trace o) = repeat (save_kwargs format) (S (length before)).
Proof.
  intros format o Hlast -> Hb Hx.
  pose proof (post_outcome w request env) as H. cbv zeta in H.
  fold format in H. fold o in H. rewrite Hlast in H. destruct H as (env1 & Hr & Hs).
  rewrite (package_raises_at w format before img after e env1 Hb Hx) in Hr, Hs.
  cbn [returned trace] in Hr, Hs. split; [exact Hr|].
  rewrite Hs, saves_saves, length_app. cbn [length]. now rewrite Nat.add_1_r.
Qed.

(** X5: the handler writes the Poppler variable only to record one of
    the two directories of lines 116-117, found on disk while the
    variable was unset or empty; in every other run the variable is as
    it was. *)
Theorem post_writes_only_a_found_directory w request env :
  let o := PdfToJpgView_post w request env in
  env_after o = env
  \/ (truthy env = false
      /\ exists p, In p (likely_paths w) /\ path_exists w p = true /\ env_after o = Some p).
Proof.
  intros o. subst o.
  post_by_cases w request env H; rewrite H; cbn [env_after];
    try (now left); subst fp; apply find_poppler_env.
Qed.

(** X6: every rasterization call is made on the bytes read from the
    upload, with the lowercased format, and a Poppler path is passed
    only if it exists on disk, in which case it is also the value of
    the variable after the request. *)
Theorem attempts_get_what_was_resolved w request env (pdf : bytes) (c : conversion_options) :
  let format := lower (get (POST request) "format" "jpg") in
  let o := PdfToJpgView_post w request env in
  In (pdf, c) (conversions (trace o)) ->
  (exists f, getitem (FILES request) "pdf" = Some f /\ read f = Ok pdf)
  /\ fmt c = format
  /\ forall p, poppler_path c = Some p -> path_exists w p = true /\ env_after o = Some p.
Proof.
  intros format0 o. subst o format0.
  assert (Hopt : forall format cairo t p,
    poppler_path (options format cairo t (returned_path (find_poppler w env))) = Some p ->
    path_exists w p = true /\ env_after (find_poppler w env) = Some p).
  { intros format cairo t p. cbn.
    destruct (truthy (returned_path (find_poppler w env))) eqn:Ht; [|discriminate].
    now apply find_poppler_path. }
  post_by_cases w request env H; rewrite H; cbn [trace env_after];
    try (intros []; fail).
  - rewrite <- (app_nil_r [_; _]), app_assoc. cbn [conversions].
    rewrite !conversions_app, conversions_probes. cbn.
    intros [[= <- <-]|[[= <- <-]|[]]];
      (split; [now exists f|split; [reflexivity|apply Hopt]]).
  - cbn [conversions].
    rewrite !conversions_app, conversions_probes.
    rewrite (encoding_run_conversions w format _ _ (package_run w format images _)).
    destruct Hcs as [(-> & _)|(-> & _)]; cbn.
    + intros [[= <- <-]|[]]. split; [now exists f|split; [reflexivity|apply Hopt]].
    + intros [[= <- <-]|[[= <- <-]|[]]];
        (split; [now exists f|split; [reflexivity|apply Hopt]]).
Qed.

(** X7: when several parts of the body are named pdf, the last one
    is the document: it is the only upload the handler reads. *)
Theorem only_the_last_pdf_part_is_read w env
  (parts : MultiValueDict UploadedFile) (f : UploadedFile) (fields : MultiValueDict string) :
  reads (trace (PdfToJpgView_post w (mkRequest (parts ++ [("pdf", f)])%list fields) env))
  = [f].
Proof.
  set (request := mkRequest (parts ++ [("pdf", f)])%list fields).
  assert (Hlast : getitem (FILES request) "pdf" = Some f) by apply getitem_last.
  post_by_cases w request env H; rewrite H; cbn [trace];
    rewrite Hlast in *; try discriminate;
    match goal with Hf : Some _ = Some _ |- _ => injection Hf as <- end.
  - reflexivity.
  - cbn [reads]. now rewrite reads_app, reads_probes.
  - cbn [reads]. rewrite !reads_app, reads_probes.
    destruct (package_cases w format images (env_after fp))
      as [(_ & ->)|[(_ & _ & r & _ & ->)|(b & x & a & e & _ & _ & _ & ->)]];
      cbn [trace]; rewrite ?reads_saves;
      destruct Hcs as [(-> & _)|(-> & _)]; reflexivity.
Qed.

(** X8: the format field is read without regard to case, and a
    missing field counts as jpg: two requests with the same files whose
    format values agree after lowercasing are handled alike, call for
    call and byte for byte. *)
Theorem format_is_case_insensitive w env
  (files : MultiValueDict UploadedFile) (fields1 fields2 : MultiValueDict string) :
  lower (get fields1 "format" "jpg") = lower (get fields2 "format" "jpg") ->
  PdfToJpgView_post w (mkRequest files fields1) env
  = PdfToJpgView_post w (mkRequest files fields2) env.
Proof.
  intros H. unfold PdfToJpgView_post. cbn [POST FILES]. now rewrite H.
Qed.

(** X9: for the format png, in any case, every page is saved as PNG
    with compress level 1, and a single page is answered as image/png
    under the name converted.png. *)
Theorem png_is_saved_as_png w request env :
  let o := PdfToJpgView_post w request env in
  lower (get (POST request) "format" "jpg") = "png" ->
  (forall f, In f (saves (trace o)) -> f = PNG 1)
  /\ (forall img data,
        last_conversion w (trace o) = Some (Ok [img]) ->
        Image_save w img (PNG 1) = Ok data ->
        returned o =
          Ok {| content := data; content_type := Some "image/png"; status := 200;
                headers := [("Content-Disposition", attachment "converted.png")] |}).
Proof.
  intros o Hpng.
  pose proof (post_outcome w request env) as H. cbv zeta in H. fold o in H.
  rewrite Hpng in H.
  assert (Hk : save_kwargs "png" = PNG 1) by reflexivity.
  split.
  - intros f Hin. destruct (last_conversion w (trace o)) as [[images|e]|].
    + destruct H as (env1 & _ & Hs). rewrite Hs in Hin.
      rewrite <- Hk. apply (encoding_run_saves w "png" env1 _ (package_run w "png" images env1)).
      exact Hin.
    + destruct H as [_ Hs]. rewrite Hs in Hin. contradiction.
    + rewrite H in Hin. contradiction.
  - intros img data Hlast Hsave. rewrite Hlast in H. destruct H as (env1 & H & _).
    rewrite H. unfold package, bind, save_page. rewrite save_eq, Hk, Hsave. reflexivity.
Qed.

(** X10: when the loop over the pages returns, it has written one
    entry per page, in page order, each holding what saving that page
    gave, under the names page_1, page_2, ... counted from the index
    given; no two entries share a name. *)
Theorem archive_entries_are_distinct w (format : string) (images : list image) (i : nat) env
  (entries : list (string * bytes)) :
  returned (write_pages w format i images env) = Ok entries ->
  map fst entries = map (page_name format) (seq i (length images))
  /\ NoDup (map fst entries)
  /\ Forall2 (fun img data => Image_save w img (save_kwargs format) = Ok data)
       images (map snd entries).
Proof.
  intros H.
  destruct (write_pages_cases w format images i env)
    as [(datas & Hall & Hw)|(b & x & a & e & _ & _ & _ & Hw)];
    rewrite Hw in H; [|discriminate H].
  injection H as <-.
  assert (Hlen : length (map (page_name format) (seq i (length images))) = length datas).
  { rewrite length_map, length_seq. exact (Forall2_length Hall). }
  rewrite (map_fst_combine _ _ Hlen).
  split; [reflexivity|]. split.
  - apply NoDup_map_NoDup_ForallPairs; [|apply seq_NoDup].
    intros a b _ _. apply page_name_inj.
  - assert (Hsnd : map snd (combine (map (page_name format) (seq i (length images))) datas)
                   = datas).
    { revert Hlen. generalize (map (page_name format) (seq i (length images))).
      clear. induction datas as [|d datas IH]; intros [|n names] H; try discriminate.
      - reflexivity.
      - cbn. rewrite IH; [reflexivity|]. now injection H. }
    now rewrite Hsnd.
Qed.

(** ** Further properties of the set-up at import *)


(** X12: the installer is a last resort.  It is started only when the
    variable is unset or empty, no candidate directory exists and the
    installer script is on disk; then it is started once, as the Python
    interpreter on that script, after all candidates and the script
    were looked for. *)
Theorem installer_runs_only_as_last_resort w env (argv : list string) :
  let o := module_setup w env in
  In argv (runs (trace o)) ->
  truthy env = false
  /\ (forall q, In q (possible_paths w) -> path_exists w q = false)
  /\ path_exists w (install_script w) = true
  /\ argv = [sys_executable w; install_script w]
  /\ trace o = (map EvExists (possible_paths w ++ [install_script w]) ++ [EvRun argv])%list.
Proof.
  intros o. subst o.
  pose proof (module_setup_outcomes w env) as H. cbv zeta in H.
  destruct H as [(_ & ->)|(Ht & [(b & p & a & _ & _ & _ & ->)|(Hn & [(_ & ->)|(Hs & ->)])])];
    cbn [trace]; rewrite ?runs_app, ?runs_map; cbn; try (intros []; fail).
  intros [<-|[]]. now repeat split.
Qed.


(** X14: import, then a request.  When the set-up found a candidate
    directory, a request served afterwards on the same filesystem looks
    for that directory only, passes it as the Poppler path to every
    rasterization call, of which there is at least one once the upload
    is read, and leaves the variable on it. *)
Theorem request_after_import_uses_the_found_directory w env request
  (before : list string) (p : string) (after : list string)
  (f : UploadedFile) (pdf : bytes) :
  truthy env = false ->
  possible_paths w = (before ++ p :: after)%list ->
  (forall q, In q before -> path_exists w q = false) ->
  path_exists w p = true ->
  getitem (FILES request) "pdf" = Some f ->
  read f = Ok pdf ->
  let o := PdfToJpgView_post w request (env_after (module_setup w env)) in
  env_after o = Some p
  /\ probes (trace o) = [p]
  /\ conversions (trace o) <> []
  /\ forall pdf' c, In (pdf', c) (conversions (trace o)) -> poppler_path c = Some p.
Proof.
  intros Ht Hpaths Hb Hp Hf Hread o. subst o.
  rewrite (module_setup_found w env before p after Ht Hpaths Hb Hp). cbn [env_after].
  assert (Htp : truthy (Some p) = true).
  { apply (possible_paths_truthy w). rewrite Hpaths. apply in_elt. }
  assert (Hfp : find_poppler w (Some p) = mkOutcome (Ok (Some p)) (Some p) [EvExists p]).
  { pose proof (find_poppler_eq w (Some p)) as H. cbv zeta in H.
    rewrite H. rewrite Htp. rewrite Hp. reflexivity. }
  pose proof (post_full w request (Some p) f pdf Hf Hread) as H. cbv zeta in H.
  rewrite Hfp in H. unfold returned_path in H. cbn [returned env_after trace] in H.
  remember (lower (get (POST request) "format" "jpg")) as format eqn:Eformat.
  assert (Hopt : forall cairo t, poppler_path (options format cairo t (Some p)) = Some p).
  { intros cairo t. unfold options. cbn [poppler_path]. now rewrite Htp. }
  rewrite H.
  destruct (convert_from_bytes w pdf _) as [images|e1].
  - cbn [env_after trace].
    destruct (package_cases w format images (Some p))
      as [(_ & ->)|[(_ & _ & r & _ & ->)|(b & x & a & e & _ & _ & _ & ->)]];
      cbn [trace probes conversions Datatypes.app];
      rewrite ?probes_saves, ?conversions_saves;
      (split; [reflexivity|]); (split; [reflexivity|]); (split; [discriminate|]);
      intros pdf' c [[= <- <-]|[]]; apply Hopt.
  - destruct (convert_from_bytes w pdf _) as [images|e2].
    + cbn [env_after trace].
      destruct (package_cases w format images (Some p))
        as [(_ & ->)|[(_ & _ & r & _ & ->)|(b & x & a & e & _ & _ & _ & ->)]];
        cbn [trace probes conversions Datatypes.app];
        rewrite ?probes_saves, ?conversions_saves;
        (split; [reflexivity|]); (split; [reflexivity|]); (split; [discriminate|]);
        intros pdf' c [[= <- <-]|[[= <- <-]|[]]]; apply Hopt.
    + cbn [env_after trace probes conversions Datatypes.app].
      (split; [reflexivity|]); (split; [reflexivity|]); (split; [discriminate|]).
      intros pdf' c [[= <- <-]|[[= <- <-]|[]]]; apply Hopt.
Qed.

(** ** Further properties of [JpgToPdfView.post] *)

(** X15: the image handler never raises: it returns an attachment
    (200) or an error (400 or 500, default content type, no header).
    It never touches the Poppler variable or the filesystem, starts no
    process, calls neither pdf2image nor PIL, and calls the assembly at
    most once. *)
Theorem jpg_post_always_answers w request env :
  let o := JpgToPdfView_post w request env in
  (exists response,
     returned o = Ok response /\ (is_attachment response \/ is_error response))
  /\ env_after o = env
  /\ probes (trace o) = [] /\ runs (trace o) = []
  /\ conversions (trace o) = [] /\ saves (trace o) = []
  /\ length (assemblies (trace o)) <= 1.
Proof.
  intros o. subst o.
  assert (Hreads : forall l : list UploadedFile,
    probes (map (@EvRead image) l) = [] /\ runs (map (@EvRead image) l) = []
    /\ conversions (map (@EvRead image) l) = [] /\ saves (map (@EvRead image) l) = []
    /\ assemblies (map (@EvRead image) l) = []).
  { induction l as [|x l IH]; [now repeat split|exact IH]. }
  assert (Happ : forall a b : list (@event image),
    assemblies (a ++ b) = (assemblies a ++ assemblies b)%list).
  { induction a as [|ev a IH]; intros b; [reflexivity|].
    destruct ev; cbn; now rewrite IH. }
  pose proof (jpg_post_outcomes w request env) as H. cbv zeta in H.
  destruct H as [(_ & ->)
                |(_ & [(b & f & a & e & d & _ & _ & _ & ->)|(datas & _ & ->)])];
    cbn [returned env_after trace].
  - split; [|now repeat split; cbn; auto].
    eexists. split; [reflexivity|]. right. unfold is_error. cbn. auto.
  - destruct (Hreads (b ++ [f])%list) as (-> & -> & -> & -> & ->).
    split; [|now repeat split; cbn; auto].
    eexists. split; [reflexivity|]. right. unfold is_error. cbn. auto.
  - rewrite probes_app, runs_app, conversions_app, saves_app, Happ.
    destruct (Hreads (getlist (FILES request) "images")) as (-> & -> & -> & -> & ->).
    split; [|now repeat split; cbn; auto].
    eexists. split; [reflexivity|].
    destruct (img2pdf_convert w datas).
    + left. now eexists _, _, _.
    + right. unfold is_error. cbn. auto.
Qed.

(** X16: when the read of an uploaded image raises, the images after
    it are not read, the assembly is not called, and the answer is 500
    with the text of the exception, a KeyError included. *)
Theorem a_failing_read_ends_the_assembly w request env
  (before : list UploadedFile) (f : UploadedFile) (after : list UploadedFile)
  (datas : list bytes) (e : exn) :
  let o := JpgToPdfView_post w request env in
  getlist (FILES request) "images" = (before ++ f :: after)%list ->
  map read before = map Ok datas ->
  read f = Raise e ->
  returned o = Ok (HttpResponse_ ("Conversion failed: " ++ str_exn e) None 500)
  /\ trace o = map EvRead (before ++ [f]).
Proof.
  intros o Himages Hb Hf. subst o.
  unfold JpgToPdfView_post. rewrite Himages.
  destruct (before ++ f :: after)%list as [|i0 rest] eqn:E; [now destruct before|].
  unfold try_except, bind. rewrite <- E.
  rewrite (mapM_read_raises before f after e datas env Hb Hf).
  cbn. now rewrite app_nil_r.
Qed.

(** X17: only the parts named images count.  Parts under other names
    and the form fields change nothing: the handler does on a request
    what it does on the request stripped of them. *)
Theorem jpg_post_reads_only_images w request env :
  JpgToPdfView_post w request env
  = JpgToPdfView_post w
      (mkRequest (filter (fun part => String.eqb (fst part) "images") (FILES request)) [])
      env.
Proof.
  unfold JpgToPdfView_post. cbn [FILES].
  assert (H : forall d : MultiValueDict UploadedFile,
    getlist (filter (fun part => String.eqb (fst part) "images") d) "images"
    = getlist d "images").
  { intros d. unfold getlist. induction d as [|[k v] d IH]; [reflexivity|].
    cbn. destruct (String.eqb k "images") eqn:E; cbn; rewrite ?E; cbn; now rewrite IH. }
  now rewrite H.
Qed.

End Properties.

(** * Instances *)

Import Sample.

Lemma post_without_pdf_is_400_witness :
  let request := upload [("images", one_jpg)] [("format", "png")] in
  ~ In "pdf" (map fst (FILES request))
  /\ returned (PdfToJpgView_post plain request None)
     = Ok (HttpResponse_ "No PDF file uploaded" None 400).
Proof.
  assert (H : ~ In "pdf" (map fst (FILES (upload [("images", one_jpg)] [("format", "png")])))).
  { simpl. intros [H|[]]. discriminate H. }
  split; [exact H|].
  exact (proj1 (post_without_pdf_is_400 plain _ None H)).
Defined.

Lemma jpg_to_pdf_post_witness :
  let request := upload [("images", one_jpg); ("images", two_jpg)] [] in
  returned (JpgToPdfView_post plain request None)
  = Ok {| content := "JFIF-1|JFIF-2"; content_type := Some "application/pdf";
          status := 200;
          headers := [("Content-Disposition", attachment "converted.pdf")] |}
  /\ trace (JpgToPdfView_post plain request None)
     = [EvRead one_jpg; EvRead two_jpg; EvImg2pdf ["JFIF-1"; "JFIF-2"]]
  /\ returned (JpgToPdfView_post plain (upload [("pdf", a_pdf)] []) None)
     = Ok (HttpResponse_ "No images provided" None 400).
Proof.
  intros request.
  destruct (jpg_to_pdf_post plain request None) as (_ & _ & H).
  destruct (H ["JFIF-1"; "JFIF-2"] "JFIF-1|JFIF-2") as [H1 H2];
    [discriminate | reflexivity | reflexivity |].
  destruct (jpg_to_pdf_post plain (upload [("pdf", a_pdf)] []) None) as ((H3 & _) & _);
    [reflexivity|].
  split; [exact H1|]. split; [exact H2|exact H3].
Defined.

Lemma at_most_two_attempts_witness :
  let request := upload [("pdf", a_pdf)] [] in
  In "pdf" (map fst (FILES request))
  /\ length (conversions (trace (PdfToJpgView_post no_poppler request None))) <= 2.
Proof.
  intros request.
  assert (H : In "pdf" (map fst (FILES request))) by (left; reflexivity).
  split; [exact H|].
  exact (proj1 (at_most_two_attempts no_poppler request None H)).
Defined.

(** C3, as written, fails: a document of no page is answered with a
    message that blames neither the document nor the toolchain. *)
Lemma failure_message_as_specified_fails :
  ~ failure_message_as_specified plain (upload [("pdf", empty_pdf)] []) None.
Proof.
  intros H. destruct H as (response & Hr & _ & Hb); [right; reflexivity|].
  vm_compute in Hr. injection Hr as <-. vm_compute in Hb. discriminate Hb.
Qed.

Lemma failed_rasterization_is_500_witness :
  returned (PdfToJpgView_post no_poppler (upload [("pdf", a_pdf)] []) None)
  = Ok (HttpResponse_ conversion_failed None 500)
  /\ returned (PdfToJpgView_post plain (upload [("pdf", empty_pdf)] []) None)
     = Ok (HttpResponse_ "Failed to extract images from PDF (no images extracted)" None 500).
Proof.
  split.
  - refine (proj1 (proj1 (failed_rasterization_is_500 no_poppler
                            (upload [("pdf", a_pdf)] []) None) _)).
    exists (OtherError "Unable to get page count."). reflexivity.
  - exact (proj2 (failed_rasterization_is_500 plain (upload [("pdf", empty_pdf)] []) None)
             eq_refl).
Defined.



(** C10, as written, fails: a KeyError raised by both rasterization
    attempts is answered 500. *)
Lemma every_KeyError_is_400_fails :
  ~ every_KeyError_is_400 bad_kwargs (upload [("pdf", a_pdf)] []) None.
Proof.
  intros H.
  assert (Hr : returned (PdfToJpgView_post bad_kwargs (upload [("pdf", a_pdf)] []) None)
               = Ok (HttpResponse_ "No PDF file uploaded" None 400)).
  { apply H. right.
    exists (EvConvertFromBytes "%PDF-1.4" (options "jpg" true (Some 60) None)).
    split; [|reflexivity]. do 3 right. left. reflexivity. }
  vm_compute in Hr. discriminate Hr.
Qed.

Lemma KeyError_outside_the_attempts_is_400_witness :
  let request := upload [("pdf", unreadable)] [] in
  (exists ev, In ev (trace (PdfToJpgView_post plain request None))
     /\ is_conversion ev = false /\ event_KeyError plain ev = true)
  /\ returned (PdfToJpgView_post plain request None)
     = Ok (HttpResponse_ "No PDF file uploaded" None 400).
Proof.
  intros request.
  assert (H : exists ev, In ev (trace (PdfToJpgView_post plain request None))
                /\ is_conversion ev = false /\ event_KeyError plain ev = true).
  { exists (EvRead unreadable). split; [left; reflexivity|]. split; reflexivity. }
  split; [exact H|].
  exact (KeyError_outside_the_attempts_is_400 plain request None (or_intror H)).
Defined.

(** C4, as written, fails: the variable still holds the missing path
    after the request. *)
Lemma cached_path_cleared_as_specified_fails :
  ~ cached_path_cleared_as_specified plain (upload [("pdf", a_pdf)] []) "/opt/poppler/bin".
Proof.
  intros H.
  destruct (H eq_refl eq_refl a_pdf "%PDF-1.4" eq_refl eq_refl) as [Henv _].
  vm_compute in Henv. discriminate Henv.
Qed.

Lemma set_location_is_left_alone_witness :
  let request := upload [("pdf", a_pdf)] [] in
  let o := PdfToJpgView_post plain request (Some "/opt/poppler/bin") in
  truthy (Some "/opt/poppler/bin") = true
  /\ path_exists plain "/opt/poppler/bin" = false
  /\ env_after o = Some "/opt/poppler/bin"
  /\ forall pdf c, In (pdf, c) (conversions (trace o)) -> poppler_path c = None.
Proof.
  intros request o.
  split; [reflexivity|]. split; [reflexivity|].
  split.
  - exact (proj1 (set_location_is_left_alone plain request (Some "/opt/poppler/bin") eq_refl)).
  - exact (proj2 (set_location_is_left_alone plain request (Some "/opt/poppler/bin") eq_refl)
             "/opt/poppler/bin" eq_refl eq_refl).
Defined.

(** C7, as written, fails: with no candidate and no installer script
    on disk, no installer is run. *)
Lemma locator_as_specified_fails : ~ locator_as_specified plain None.
Proof.
  intros H. destruct (H eq_refl) as [_ Hi].
  destruct Hi as [Hruns _]; [reflexivity|].
  vm_compute in Hruns. discriminate Hruns.
Qed.

Lemma locator_at_import_witness :
  env_after (module_setup unpacked None) = Some "/srv/backend/poppler/Library/bin"
  /\ probes (trace (module_setup unpacked None))
     = ["/srv/backend/poppler/poppler-23.11.0/Library/bin"; "/srv/backend/poppler/Library/bin"]
  /\ runs (trace (module_setup installable (Some "")))
     = [["/usr/bin/python3"; "/srv/backend/install_poppler.py"]]
  /\ env_after (module_setup installable (Some "")) = Some "/srv/backend/poppler/bin"
  /\ env_after (module_setup plain None) = None.
Proof.
  destruct (proj1 (locator_at_import unpacked None eq_refl)
              ["/srv/backend/poppler/poppler-23.11.0/Library/bin"]
              "/srv/backend/poppler/Library/bin"
              ["/srv/backend/poppler/bin"; "/srv/backend/poppler-23.11.0/Library/bin"]
              eq_refl) as (H1 & H2 & _).
  { intros q [<-|[]]. reflexivity. }
  { reflexivity. }
  destruct (proj1 (proj2 (locator_at_import installable (Some "") eq_refl)
                     ltac:(intros q [<-|[<-|[<-|[<-|[]]]]]; reflexivity)) eq_refl)
    as [H3 H4].
  destruct (proj2 (proj2 (locator_at_import plain None eq_refl)
                     ltac:(intros q Hq; reflexivity)) eq_refl)
    as [_ H5].
  split; [exact H1|]. split; [exact H2|]. split; [exact H3|]. split; [exact H4|exact H5].
Defined.

(** ** Instances of the further properties *)

Lemma a_400_comes_from_a_KeyError_witness :
  let request := upload [("pdf", unreadable)] [] in
  let o := PdfToJpgView_post plain request None in
  returned o = Ok (HttpResponse_ "No PDF file uploaded" None 400)
  /\ (getitem (FILES request) "pdf" = None
      \/ exists ev, In ev (trace o) /\ is_conversion ev = false
                    /\ event_KeyError plain ev = true).
Proof.
  intros request o. split; [reflexivity|].
  exact (a_400_comes_from_a_KeyError plain request None
           (HttpResponse_ "No PDF file uploaded" None 400) eq_refl eq_refl).
Defined.

Lemma a_200_has_every_page_saved_witness :
  let request := upload [("pdf", three_pages)] [("format", "png")] in
  let o := PdfToJpgView_post plain request None in
  let response :=
    {| content := "page_1.png=PNG:1;page_2.png=PNG:2;page_3.png=PNG:3";
       content_type := Some "application/zip"; status := 200;
       headers := [("Content-Disposition", attachment "converted.zip")] |} in
  returned o = Ok response /\ status response = 200 /\ is_attachment response.
Proof.
  intros request o response. split; [reflexivity|]. split; [reflexivity|].
  exact (proj1 (a_200_has_every_page_saved plain request None response eq_refl eq_refl)).
Defined.

Lemma a_failing_save_ends_the_encoding_witness :
  let request := upload [("pdf", three_pages)] [] in
  let o := PdfToJpgView_post flaky_PIL request None in
  last_conversion flaky_PIL (trace o) = Some (Ok [1; 2; 3])
  /\ Image_save flaky_PIL 2 (JPEG 95) = Raise (OtherError "cannot write mode P as JPEG")
  /\ returned o
     = Ok (HttpResponse_ "Conversion failed: cannot write mode P as JPEG" None 500)
  /\ saves (trace o) = [JPEG 95; JPEG 95].
Proof.
  intros request o. split; [reflexivity|]. split; [reflexivity|].
  refine (a_failing_save_ends_the_encoding flaky_PIL request None [1; 2; 3] [1] [3] 2
            (OtherError "cannot write mode P as JPEG") eq_refl eq_refl _ eq_refl).
  constructor; [exists "JPEG:1"; reflexivity|constructor].
Defined.

Lemma attempts_get_what_was_resolved_witness :
  let request := upload [("pdf", a_pdf)] [] in
  let o := PdfToJpgView_post unpacked request None in
  let c := options "jpg" true (Some 60) (Some "/srv/backend/poppler/Library/bin") in
  In ("%PDF-1.4", c) (conversions (trace o))
  /\ path_exists unpacked "/srv/backend/poppler/Library/bin" = true
  /\ env_after o = Some "/srv/backend/poppler/Library/bin".
Proof.
  intros request o c.
  assert (H : In ("%PDF-1.4", c) (conversions (trace o))) by (left; reflexivity).
  split; [exact H|].
  exact (proj2 (proj2 (attempts_get_what_was_resolved unpacked request None "%PDF-1.4" c H))
           "/srv/backend/poppler/Library/bin" eq_refl).
Defined.

Lemma format_is_case_insensitive_witness :
  lower (get [("format", "PNG")] "format" "jpg") = lower (get [("format", "png")] "format" "jpg")
  /\ PdfToJpgView_post plain (upload [("pdf", three_pages)] [("format", "PNG")]) None
     = PdfToJpgView_post plain (upload [("pdf", three_pages)] [("format", "png")]) None.
Proof.
  split; [reflexivity|].
  exact (format_is_case_insensitive plain None [("pdf", three_pages)]
           [("format", "PNG")] [("format", "png")] eq_refl).
Defined.

Lemma png_is_saved_as_png_witness :
  let request := upload [("pdf", one_page)] [("format", "PnG")] in
  let o := PdfToJpgView_post plain request None in
  lower (get (POST request) "format" "jpg") = "png"
  /\ returned o
     = Ok {| content := "PNG:1"; content_type := Some "image/png"; status := 200;
             headers := [("Content-Disposition", attachment "converted.png")] |}.
Proof.
  intros request o. split; [reflexivity|].
  exact (proj2 (png_is_saved_as_png plain request None eq_refl) 1 "PNG:1" eq_refl eq_refl).
Defined.

Lemma archive_entries_are_distinct_witness :
  let entries := [("page_1.png", "PNG:1"); ("page_2.png", "PNG:2"); ("page_3.png", "PNG:3")] in
  returned (write_pages plain "png" 0 [1; 2; 3] None) = Ok entries
  /\ NoDup (map fst entries).
Proof.
  intros entries. split; [reflexivity|].
  exact (proj1 (proj2 (archive_entries_are_distinct plain "png" [1; 2; 3] 0 None entries
                         eq_refl))).
Defined.


Lemma installer_runs_only_as_last_resort_witness :
  let argv := ["/usr/bin/python3"; "/srv/backend/install_poppler.py"] in
  In argv (runs (trace (module_setup installable None)))
  /\ path_exists installable (install_script installable) = true
  /\ forall q, In q (possible_paths installable) -> path_exists installable q = false.
Proof.
  intros argv.
  assert (H : In argv (runs (trace (module_setup installable None)))) by (left; reflexivity).
  split; [exact H|].
  destruct (installer_runs_only_as_last_resort installable None argv H)
    as (_ & Hnone & Hscript & _).
  split; [exact Hscript|exact Hnone].
Defined.


Lemma request_after_import_uses_the_found_directory_witness :
  let request := upload [("pdf", a_pdf)] [] in
  let o := PdfToJpgView_post unpacked request (env_after (module_setup unpacked None)) in
  env_after o = Some "/srv/backend/poppler/Library/bin"
  /\ probes (trace o) = ["/srv/backend/poppler/Library/bin"].
Proof.
  intros request o.
  destruct (request_after_import_uses_the_found_directory unpacked None request
              ["/srv/backend/poppler/poppler-23.11.0/Library/bin"]
              "/srv/backend/poppler/Library/bin"
              ["/srv/backend/poppler/bin"; "/srv/backend/poppler-23.11.0/Library/bin"]
              a_pdf "%PDF-1.4" eq_refl eq_refl
              ltac:(intros q [<-|[]]; reflexivity)
              eq_refl eq_refl eq_refl)
    as (H1 & H2 & _).
  split; [exact H1|exact H2].
Defined.

Lemma a_failing_read_ends_the_assembly_witness :
  let request := upload [("images", one_jpg); ("images", unreadable); ("images", two_jpg)] [] in
  let o := JpgToPdfView_post plain request None in
  returned o = Ok (HttpResponse_ "Conversion failed: 'chunk'" None 500)
  /\ trace o = [EvRead one_jpg; EvRead unreadable].
Proof.
  intros request o.
  exact (a_failing_read_ends_the_assembly plain request None
           [one_jpg] unreadable [two_jpg] ["JFIF-1"] (KeyError "'chunk'")
           eq_refl eq_refl eq_refl).
Defined.
